(** * web3-tx-inspector: a shallow embedding of [app.py]

    The program validates a transaction hash, asks a JSON-RPC node for the
    transaction, its receipt and its block, derives a few metrics and prints
    them as text or as JSON.  This file embeds [app.py] function by function
    and proves the properties its specification states.

    Conventions.
    - A Python [str] is a [string]; one [ascii] stands for one character.
    - A Python [int] is a [Z].
    - A Python [float] is an IEEE 754 binary64 number, a [spec_float] used at
      precision 53 and maximal exponent 1024.
    - A Python [dict] keyed by integers is a [gmap Z _].
    - [sys.exit], raised exceptions and [print] are explicit: a computation
      returns an [outcome] and threads the lines written to standard output. *)

From Stdlib Require Import ZArith String Ascii List Bool Lia SpecFloat Sorted.
From Stdlib Require Import DecimalString.
From stdpp Require Import base option gmap strings.

Open Scope string_scope.
Open Scope Z_scope.

(** ** Exceptions and early exits *)

(** The exceptions the modelled code can raise. *)
Inductive exn : Type :=
| ValueError (msg : string)
| ZeroDivisionError (msg : string)
| OverflowError (msg : string)
| KeyError (msg : string)
| TypeError (msg : string)
| OSError (msg : string)
| RPCError (msg : string).

(** How a call ends: it returns, it calls [sys.exit code], or it raises. *)
Inductive outcome (A : Type) : Type :=
| Ret (a : A)
| Exit (code : Z)
| Raise (e : exn).
Arguments Ret {A} a.
Arguments Exit {A} code.
Arguments Raise {A} e.

Definition obind {A B : Type} (c : outcome A) (k : A -> outcome B) : outcome B :=
  match c with
  | Ret a => k a
  | Exit code => Exit code
  | Raise e => Raise e
  end.

(** ** Python floats *)

Module PyFloat.

Definition prec : Z := 53.
Definition emax : Z := 1024.

Definition pos_zero : spec_float := S754_zero false.

(** An integer as an exact, not yet rounded, floating-point datum. *)
Definition exact (a : Z) : spec_float :=
  match a with
  | Z0 => S754_zero false
  | Zpos p => S754_finite false p 0
  | Zneg p => S754_finite true p 0
  end.

(** The binary64 number nearest to the rational [a / b] (ties to even),
    for [b <> 0].  This is what both [int / int] and the conversion of a
    decimal numeral to a float compute. *)
Definition nearest (a b : Z) : spec_float :=
  SFdiv prec emax (exact a) (exact b).

Definition is_inf (x : spec_float) : bool :=
  match x with S754_infinity _ => true | _ => false end.

(** [float(n)] for an int [n]. *)
Definition of_int (n : Z) : outcome spec_float :=
  let r := binary_normalize prec emax n 0 false in
  if is_inf r then Raise (OverflowError "int too large to convert to float")
  else Ret r.

(** [a / b] on ints: true division, correctly rounded. *)
Definition int_truediv (a b : Z) : outcome spec_float :=
  if b =? 0 then Raise (ZeroDivisionError "division by zero")
  else
    let r := nearest a b in
    if is_inf r
    then Raise (OverflowError "integer division result too large for a float")
    else Ret r.

(** [x * y] on floats never raises. *)
Definition mul (x y : spec_float) : spec_float := SFmul prec emax x y.

(** [x * n] for a float [x] and an int [n]: [n] is converted first. *)
Definition mul_int (x : spec_float) (n : Z) : outcome spec_float :=
  obind (of_int n) (fun y => Ret (mul x y)).

(** Integer quotient of [a / b] rounded to nearest, ties to even
    ([0 <= a], [0 < b]). *)
Definition div_half_even (a b : Z) : Z :=
  let q := a / b in
  let r := a mod b in
  match (2 * r) ?= b with
  | Lt => q
  | Gt => q + 1
  | Eq => if Z.even q then q else q + 1
  end.

(** The integer nearest to [m * 2^e * 10^ndigits], ties to even. *)
Definition scaled_half_even (m : positive) (e : Z) (ndigits : Z) : Z :=
  let a := Zpos m * 10 ^ ndigits in
  if 0 <=? e then a * 2 ^ e else div_half_even a (2 ^ (- e)).

(** [round(x, ndigits)] for [0 <= ndigits]: the exact value of [x] is
    rounded to [ndigits] decimals (ties to even), and the decimal numeral
    obtained is converted back to the nearest float.  Zeros, infinities
    and NaN round to themselves. *)
Definition round (x : spec_float) (ndigits : Z) : outcome spec_float :=
  match x with
  | S754_finite s m e =>
      let n := scaled_half_even m e ndigits in
      let r :=
        if n =? 0 then S754_zero s
        else nearest (if s then - n else n) (10 ^ ndigits) in
      if is_inf r
      then Raise (OverflowError "rounded value too large to represent")
      else Ret r
  | _ => Ret x
  end.

End PyFloat.

(** ** Python built-ins used by the program *)

(** [str(n)] for an int. *)
Definition str_of_int (n : Z) : string := NilZero.string_of_int (Z.to_int n).

(** [v[n:]] for a string. *)
Fixpoint str_from (n : nat) (v : string) : string :=
  match n, v with
  | O, _ => v
  | S n', String _ v' => str_from n' v'
  | S _, EmptyString => EmptyString
  end.

(** [c in s] for a one-character [c]. *)
Definition char_in (c : ascii) (s : string) : bool :=
  existsb (Ascii.eqb c) (list_ascii_of_string s).

(** [all(p(c) for c in v)]. *)
Definition str_all (p : ascii -> bool) (v : string) : bool :=
  forallb p (list_ascii_of_string v).

(** Truthiness of a string: the empty one is false. *)
Definition str_truthy (s : string) : bool :=
  match s with EmptyString => false | _ => true end.

(** ** Lookup tables *)

Definition NETWORKS : gmap Z string :=
  <[1 := "Ethereum Mainnet"]> (
  <[10 := "Optimism"]> (
  <[56 := "BNB Smart Chain"]> (
  <[137 := "Polygon"]> (
  <[42161 := "Arbitrum One"]> (
  <[8453 := "Base"]> ∅))))).

Definition EXPLORERS : gmap Z string :=
  <[1 := "https://etherscan.io"]> (
  <[10 := "https://optimistic.etherscan.io"]> (
  <[56 := "https://bscscan.com"]> (
  <[137 := "https://polygonscan.com"]> (
  <[42161 := "https://arbiscan.io"]> (
  <[8453 := "https://basescan.org"]> ∅))))).

(** ** Hash validation *)

Definition HEX_CHARS : string := "0123456789abcdefABCDEF".

Definition is_tx_hash (v : string) : bool :=
  String.prefix "0x" v
  && (String.length v =? 66)%nat
  && str_all (fun c => char_in c HEX_CHARS) (str_from 2 v).

(** ** Explorer link *)

Definition explorer_url (chain_id : Z) (tx_hash : string) : string :=
  match EXPLORERS !! chain_id with
  | Some base => if str_truthy base then base +:+ "/tx/" +:+ tx_hash else "N/A"
  | None => "N/A"
  end.

(** ** Standard output, exits and exceptions together *)

(** A command threads the lines printed so far and ends in an [outcome]. *)
Definition IO (A : Type) : Type := list string -> outcome A * list string.

Definition io_ret {A : Type} (a : A) : IO A := fun out => (Ret a, out).

Definition io_bind {A B : Type} (c : IO A) (k : A -> IO B) : IO B :=
  fun out =>
    match c out with
    | (Ret a, out') => k a out'
    | (Exit code, out') => (Exit code, out')
    | (Raise e, out') => (Raise e, out')
    end.

#[global] Instance IO_ret : MRet IO := @io_ret.
#[global] Instance IO_bind : MBind IO := fun A B k c => io_bind c k.

(** [print(line)]. *)
Definition print (line : string) : IO unit := fun out => (Ret tt, (out ++ [line])%list).

(** [sys.exit(code)]. *)
Definition sys_exit {A : Type} (code : Z) : IO A := fun out => (Exit code, out).

(** A computation without output, run as a command. *)
Definition lift {A : Type} (c : outcome A) : IO A := fun out => (c, out).

(** The status the operating system sees: 0 when the program runs to its
    end, the argument of [sys.exit], and 1 after an uncaught exception. *)
Definition exit_status {A : Type} (o : outcome A) : Z :=
  match o with
  | Ret _ => 0
  | Exit code => code
  | Raise _ => 1
  end.

(** ** What the node answers *)

(** [w3.eth.get_transaction]: [tx_blockNumber] and [tx_gas] may be [None],
    and [tx_to] is [None] for a contract creation. *)
Record Transaction : Type := {
  tx_blockNumber : option Z;
  tx_gas : option Z;
  tx_from : string;
  tx_to : option string
}.

(** A field of an answer that the client passes on as the node sent it: an
    int when the node sent a JSON number, a [str] when it sent a
    hexadecimal string such as ["0x6fc23ac00"]. *)
Inductive quantity : Type :=
| QInt (n : Z)
| QStr (s : string).

(** [w3.eth.get_transaction_receipt]: an optional field is [None] when the
    receipt has no attribute of that name.  The client turns the
    hexadecimal strings of [blockNumber], [gasUsed], [status] and
    [effectiveGasPrice] into ints; [gasPrice] is not among the receipt
    fields it knows, and is passed on as the node sent it. *)
Record Receipt : Type := {
  rc_blockNumber : Z;
  rc_gasUsed : Z;
  rc_status : Z;
  rc_effectiveGasPrice : option Z;
  rc_gasPrice : option quantity
}.

(** [w3.eth.get_block]: an optional field is [None] when the block has no
    key of that name. *)
Record Block : Type := {
  blk_timestamp : Z;
  blk_baseFeePerGas : option Z;
  blk_miner : option string
}.

(** The client object: each request returns or raises. *)
Record Web3 : Type := {
  is_connected : bool;
  eth_chain_id : outcome Z;
  eth_get_transaction : string -> outcome Transaction;
  eth_get_transaction_receipt : string -> outcome Receipt;
  eth_get_block : Z -> outcome Block;
  eth_block_number : outcome Z
}.

(** ** Unit conversion of the client library *)

(** What [Web3.from_wei] returns: the int 0, or an exact decimal quotient. *)
Inductive number : Type :=
| NInt (n : Z)
| NDecimal (num den : Z).

Definition MIN_WEI : Z := 0.
Definition MAX_WEI : Z := 2 ^ 256 - 1.

Definition units : gmap string Z :=
  <["wei" := 1]> (<["gwei" := 10 ^ 9]> (<["ether" := 10 ^ 18]> ∅)).

Definition from_wei (n : Z) (unit : string) : outcome number :=
  match units !! unit with
  | None => Raise (ValueError "Unknown unit")
  | Some unit_value =>
      if n =? 0 then Ret (NInt 0)
      else if (n <? MIN_WEI) || (MAX_WEI <? n)
      then Raise (ValueError "value must be between 1 and 2**256 - 1")
      else Ret (NDecimal n unit_value)
  end.

(** [float(x)] for what [from_wei] returns. *)
Definition float_of_number (x : number) : outcome spec_float :=
  match x with
  | NInt n => PyFloat.of_int n
  | NDecimal num den => Ret (PyFloat.nearest num den)
  end.

(** ** The summary *)

Record TxSummary : Type := {
  chainId : Z;
  network : string;
  txHash : string;
  from_addr : string;
  to_addr : string;
  blockNumber : Z;
  timestamp : Z;
  confirmations : Z;
  status : Z;
  gasUsed : Z;
  gasLimit : Z;
  gasEfficiency : spec_float;
  gasPriceGwei : spec_float;
  totalFeeEth : spec_float;
  baseFeeGwei : spec_float;
  miner : string;
  explorer : string
}.

(** The values a summary dict holds. *)
Inductive pyval : Type :=
| VInt (n : Z)
| VFloat (x : spec_float)
| VStr (s : string).

(** A [dict] with string keys, in insertion order. *)
Definition dict : Type := list (string * pyval).

(** [dataclasses.asdict]: one entry per field, in declaration order. *)
Definition asdict (s : TxSummary) : dict :=
  [ ("chainId", VInt (chainId s));
    ("network", VStr (network s));
    ("txHash", VStr (txHash s));
    ("from_addr", VStr (from_addr s));
    ("to_addr", VStr (to_addr s));
    ("blockNumber", VInt (blockNumber s));
    ("timestamp", VInt (timestamp s));
    ("confirmations", VInt (confirmations s));
    ("status", VInt (status s));
    ("gasUsed", VInt (gasUsed s));
    ("gasLimit", VInt (gasLimit s));
    ("gasEfficiency", VFloat (gasEfficiency s));
    ("gasPriceGwei", VFloat (gasPriceGwei s));
    ("totalFeeEth", VFloat (totalFeeEth s));
    ("baseFeeGwei", VFloat (baseFeeGwei s));
    ("miner", VStr (miner s));
    ("explorer", VStr (explorer s)) ].

(** ** Building the summary *)

(** [x or d] on an optional int: [None] and [0] are both false. *)
Definition int_or (x : option Z) (d : Z) : Z :=
  match x with
  | Some n => if n =? 0 then d else n
  | None => d
  end.

(** [x or d] on an optional string: [None] and the empty string are false. *)
Definition str_or (x : option string) (d : string) : string :=
  match x with
  | Some s => if str_truthy s then s else d
  | None => d
  end.

(** [gas_eff]: the guarded percentage of lines 80 and 81. *)
Definition gas_eff_of (gasUsed_ gas_limit : Z) : outcome spec_float :=
  if negb (gas_limit =? 0)
  then obind (PyFloat.int_truediv gasUsed_ gas_limit)
             (fun q => PyFloat.mul_int q 100)
  else Ret PyFloat.pos_zero.

(** [getattr(receipt, "effectiveGasPrice", getattr(receipt, "gasPrice", 0))]. *)
Definition gas_price_of (receipt : Receipt) : quantity :=
  match rc_effectiveGasPrice receipt with
  | Some p => QInt p
  | None =>
      match rc_gasPrice receipt with
      | Some p => p
      | None => QInt 0
      end
  end.

(** [sys.maxsize], the largest [Py_ssize_t]. *)
Definition SSIZE_MAX : Z := 2 ^ 63 - 1.

(** [count] copies of [s], one after the other. *)
Fixpoint str_repeat (count : nat) (s : string) : string :=
  match count with
  | O => ""
  | S count' => s +:+ str_repeat count' s
  end.

(** [n * q] for an int [n], line 84: the product of two ints, or the
    repetition of a [str], which is empty for [n <= 0] and raises for a count
    or a length that is no [Py_ssize_t].  Memory is taken to suffice for a
    repetition of such a length. *)
Definition int_times (n : Z) (q : quantity) : outcome quantity :=
  match q with
  | QInt p => Ret (QInt (n * p))
  | QStr s =>
      if (n <? - SSIZE_MAX - 1) || (SSIZE_MAX <? n)
      then Raise (OverflowError "cannot fit 'int' into an index-sized integer")
      else if SSIZE_MAX <? Z.of_nat (String.length s) * Z.max 0 n
      then Raise (OverflowError "repeated string is too long")
      else Ret (QStr (str_repeat (Z.to_nat n) s))
  end.

(** [float(Web3.from_wei(n, unit))]. *)
Definition float_from_wei (n : Z) (unit : string) : outcome spec_float :=
  obind (from_wei n unit) float_of_number.

(** [float(Web3.from_wei(q, unit))]: for a [str] and a known unit,
    [from_wei] finds it different from 0 and raises on comparing it with
    the least amount. *)
Definition float_from_quantity (q : quantity) (unit : string)
  : outcome spec_float :=
  match q with
  | QInt n => float_from_wei n unit
  | QStr _ =>
      match units !! unit with
      | None => Raise (ValueError "Unknown unit")
      | Some _ =>
          Raise (TypeError
                   "'<' not supported between instances of 'str' and 'int'")
      end
  end.

(** The part of [fetch_summary] after the four requests: it computes the
    fields from the answers, reads the chain id and builds the record. *)
Definition build_summary (w3 : Web3) (tx_hash : string) (tx : Transaction)
    (receipt : Receipt) (block : Block) (latest : Z) : outcome TxSummary :=
  let gas_limit := int_or (tx_gas tx) 0 in
  obind (gas_eff_of (rc_gasUsed receipt) gas_limit) (fun gas_eff =>
  let gas_price := gas_price_of receipt in
  obind (int_times (rc_gasUsed receipt) gas_price) (fun total_fee =>
  let base_fee := default 0 (blk_baseFeePerGas block) in
  obind (eth_chain_id w3) (fun chain =>
  obind (PyFloat.round gas_eff 2) (fun gasEfficiency_ =>
  obind (float_from_quantity gas_price "gwei") (fun gasPriceGwei_ =>
  obind (float_from_quantity total_fee "ether") (fun totalFeeEth_ =>
  obind (float_from_wei base_fee "gwei") (fun baseFeeGwei_ =>
  Ret {| chainId := chain;
         network := default ("Chain " +:+ str_of_int chain) (NETWORKS !! chain);
         txHash := tx_hash;
         from_addr := tx_from tx;
         to_addr := str_or (tx_to tx) "(contract creation)";
         blockNumber := rc_blockNumber receipt;
         timestamp := blk_timestamp block;
         confirmations := Z.max 0 (latest - rc_blockNumber receipt);
         status := rc_status receipt;
         gasUsed := rc_gasUsed receipt;
         gasLimit := gas_limit;
         gasEfficiency := gasEfficiency_;
         gasPriceGwei := gasPriceGwei_;
         totalFeeEth := totalFeeEth_;
         baseFeeGwei := baseFeeGwei_;
         miner := default "N/A" (blk_miner block);
         explorer := explorer_url chain tx_hash |}))))))).

Definition fetch_summary (w3 : Web3) (tx_hash : string) : IO dict :=
  tx ← lift (eth_get_transaction w3 tx_hash);
  match tx_blockNumber tx with
  | None => _ ← print "⏳ Pending transaction."; sys_exit 0
  | Some _ =>
      receipt ← lift (eth_get_transaction_receipt w3 tx_hash);
      block ← lift (eth_get_block w3 (rc_blockNumber receipt));
      latest ← lift (eth_block_number w3);
      summary ← lift (build_summary w3 tx_hash tx receipt block latest);
      mret (asdict summary)
  end.

(** ** JSON output *)

Definition dquote : string := String "034"%char EmptyString.
Definition backslash : string := String "092"%char EmptyString.
Definition newline : string := String "010"%char EmptyString.

(** One lowercase hexadecimal digit. *)
Definition hex_digit (n : N) : ascii :=
  match String.get (N.to_nat n) "0123456789abcdef" with
  | Some c => c
  | None => "0"%char
  end.

(** The four hexadecimal digits of a [\uXXXX] escape. *)
Definition hex4 (n : N) : string :=
  String (hex_digit (n / 4096 mod 16)%N)
    (String (hex_digit (n / 256 mod 16)%N)
      (String (hex_digit (n / 16 mod 16)%N)
        (String (hex_digit (n mod 16)%N) EmptyString))).

(** The escape of one character with [ensure_ascii] on: printable ASCII is
    kept, the quote, the backslash and the usual control characters have a
    short escape, anything else is written [\uXXXX]. *)
Definition escape_char (c : ascii) : string :=
  let n := N_of_ascii c in
  if (n =? 34)%N then backslash +:+ dquote
  else if (n =? 92)%N then backslash +:+ backslash
  else if (n =? 10)%N then backslash +:+ "n"
  else if (n =? 13)%N then backslash +:+ "r"
  else if (n =? 9)%N then backslash +:+ "t"
  else if (n =? 12)%N then backslash +:+ "f"
  else if (n =? 8)%N then backslash +:+ "b"
  else if (32 <=? n)%N && (n <=? 126)%N then String c EmptyString
  else backslash +:+ "u" +:+ hex4 n.

Fixpoint escape_chars (s : string) : string :=
  match s with
  | EmptyString => EmptyString
  | String c s' => escape_char c +:+ escape_chars s'
  end.

Definition encode_str (s : string) : string := dquote +:+ escape_chars s +:+ dquote.

(** [sorted(d.items())] for distinct keys: a stable insertion sort on the
    key, compared character by character. *)
Definition key_le (k1 k2 : string) : bool :=
  match String.compare k1 k2 with
  | Gt => false
  | _ => true
  end.

Fixpoint insert_item (it : string * pyval) (l : dict) : dict :=
  match l with
  | [] => [it]
  | it' :: l' =>
      if key_le it.1 it'.1 then it :: l else it' :: insert_item it l'
  end.

Definition sorted_items (d : dict) : dict := foldr insert_item [] d.

Fixpoint spaces (n : nat) : string :=
  match n with
  | O => EmptyString
  | S n' => String " "%char (spaces n')
  end.

Fixpoint join (sep : string) (l : list string) : string :=
  match l with
  | [] => EmptyString
  | [x] => x
  | x :: l' => x +:+ sep +:+ join sep l'
  end.

Section Program.

(** Formatting done by the interpreter and its library, taken as given:
    [repr] of a finite float, [format(x, ".Nf")], and
    [time.strftime('%Y-%m-%d %H:%M:%S', time.gmtime(v))], which returns the
    date or raises: [time.gmtime] raises [OverflowError] or [OSError] for a
    timestamp outside the range of the platform. *)
Variable float_repr : spec_float -> string.
Variable format_fixed : nat -> spec_float -> string.
Variable strftime_gmtime : pyval -> outcome string.

(** How the JSON encoder writes a float. *)
Definition floatstr (x : spec_float) : string :=
  match x with
  | S754_nan => "NaN"
  | S754_infinity false => "Infinity"
  | S754_infinity true => "-Infinity"
  | _ => float_repr x
  end.

Definition json_value (v : pyval) : string :=
  match v with
  | VInt n => str_of_int n
  | VFloat x => floatstr x
  | VStr s => encode_str s
  end.

Definition json_item (it : string * pyval) : string :=
  encode_str it.1 +:+ ": " +:+ json_value it.2.

(** [json.dumps(d, indent=indent, sort_keys=sort_keys)] for a flat dict. *)
Definition json_dumps (d : dict) (indent : nat) (sort_keys : bool) : string :=
  match d with
  | [] => "{}"
  | _ =>
      let items := if sort_keys then sorted_items d else d in
      let newline_indent := newline +:+ spaces indent in
      "{" +:+ newline_indent
      +:+ join ("," +:+ newline_indent) (map json_item items)
      +:+ newline +:+ "}"
  end.

(** ** Text output helpers *)

(** [d[key]]. *)
Fixpoint dict_get (d : dict) (key : string) : outcome pyval :=
  match d with
  | [] => Raise (KeyError key)
  | (k, v) :: d' => if String.eqb k key then Ret v else dict_get d' key
  end.

(** [str(x)] for a float. *)
Definition float_str (x : spec_float) : string :=
  match x with
  | S754_nan => "nan"
  | S754_infinity false => "inf"
  | S754_infinity true => "-inf"
  | _ => float_repr x
  end.

(** [f"{v}"]. *)
Definition fmt (v : pyval) : string :=
  match v with
  | VInt n => str_of_int n
  | VFloat x => float_str x
  | VStr s => s
  end.

(** [f"{v:.Nf}"]. *)
Definition fmt_fixed (n : nat) (v : pyval) : outcome string :=
  match v with
  | VInt k => obind (PyFloat.of_int k) (fun x => Ret (format_fixed n x))
  | VFloat x => Ret (format_fixed n x)
  | VStr _ => Raise (ValueError "Unknown format code 'f' for object of type 'str'")
  end.

Definition truthy (v : pyval) : bool :=
  match v with
  | VInt n => negb (n =? 0)
  | VFloat (S754_zero _) => false
  | VFloat _ => true
  | VStr s => str_truthy s
  end.

(** [time.strftime('%Y-%m-%d %H:%M:%S', time.gmtime(v))], line 143: the
    date, or the exception of [time.gmtime]. *)
Definition fmt_time (v : pyval) : outcome string :=
  strftime_gmtime v.

(** ** Command line *)

Record Namespace : Type := {
  ns_tx_hash : string;
  ns_rpc : string;
  ns_json : bool
}.

(** One [add_argument] call: the name, and the [action] and [default]
    keywords when given. *)
Record Argument : Type := {
  arg_name : string;
  arg_action : option string;
  arg_default : option string
}.

(** The action names the parser has registered. *)
Definition REGISTERED_ACTIONS : list string :=
  [ "store"; "store_const"; "store_true"; "store_false"; "append";
    "append_const"; "count"; "help"; "version"; "parsers"; "extend" ].

(** [p.add_argument(...)]: an action name that is not registered is
    refused at declaration time. *)
Definition add_argument (p : list Argument) (a : Argument)
  : outcome (list Argument) :=
  match arg_action a with
  | None => Ret (p ++ [a])%list
  | Some act =>
      if existsb (String.eqb act) REGISTERED_ACTIONS
      then Ret (p ++ [a])%list
      else Raise (ValueError ("unknown action " +:+ dquote +:+ act +:+ dquote))
  end.

(** [p.parse_args()] of the library, taken as given: the command line
    read against the declared arguments. *)
Variable argparse_parse : list Argument -> list string -> outcome Namespace.

(** The process environment and the network. *)
Record Env : Type := {
  RPC_URL : option string;
  provider : string -> Web3;
  elapsed : spec_float
}.

Variable env : Env.

Definition DEFAULT_RPC : string :=
  default "https://mainnet.infura.io/v3/your_api_key" (RPC_URL env).

Definition parse_args (argv : list string) : outcome Namespace :=
  obind (add_argument []
           {| arg_name := "tx_hash"; arg_action := None; arg_default := None |})
    (fun p1 =>
  obind (add_argument p1
           {| arg_name := "--rpc"; arg_action := None;
              arg_default := Some DEFAULT_RPC |})
    (fun p2 =>
  obind (add_argument p2
           {| arg_name := "--json"; arg_action := Some "true";
              arg_default := None |})
    (fun p3 => argparse_parse p3 argv))).

(** ** Connection *)

Definition connect (rpc : string) : IO (Web3 * spec_float) :=
  let w3 := provider env rpc in
  if negb (is_connected w3)
  then _ ← print ("❌ Could not connect to RPC: " +:+ rpc); sys_exit 1
  else mret (w3, elapsed env).

(** ** Main *)

Definition print_text (summary : dict) : IO unit :=
  network_ ← lift (dict_get summary "network");
  chainId_ ← lift (dict_get summary "chainId");
  _ ← print ("🌐 Network: " +:+ fmt network_ +:+ " (" +:+ fmt chainId_ +:+ ")");
  explorer_ ← lift (dict_get summary "explorer");
  _ ← print ("🔗 Explorer: " +:+ fmt explorer_);
  from_ ← lift (dict_get summary "from_addr");
  _ ← print ("👤 From: " +:+ fmt from_);
  to_ ← lift (dict_get summary "to_addr");
  _ ← print ("🎯 To: " +:+ fmt to_);
  status_ ← lift (dict_get summary "status");
  _ ← print ("📦 Status: " +:+ (if truthy status_ then "Success" else "Failed"));
  miner_ ← lift (dict_get summary "miner");
  _ ← print ("⛏  Miner: " +:+ fmt miner_);
  block_ ← lift (dict_get summary "blockNumber");
  ts ← lift (dict_get summary "timestamp");
  when ← lift (fmt_time ts);
  _ ← print ("🔢 Block: " +:+ fmt block_ +:+ "  ⏱  " +:+ when +:+ " UTC");
  conf ← lift (dict_get summary "confirmations");
  _ ← print ("🔁 Confirmations: " +:+ fmt conf);
  used ← lift (dict_get summary "gasUsed");
  limit ← lift (dict_get summary "gasLimit");
  eff ← lift (dict_get summary "gasEfficiency");
  _ ← print ("⛽ Gas Used: " +:+ fmt used +:+ "/" +:+ fmt limit
             +:+ " (" +:+ fmt eff +:+ "%)");
  price ← lift (dict_get summary "gasPriceGwei");
  price_s ← lift (fmt_fixed 2 price);
  base ← lift (dict_get summary "baseFeeGwei");
  base_s ← lift (fmt_fixed 2 base);
  _ ← print ("⛽ Gas Price: " +:+ price_s +:+ " gwei  BaseFee: " +:+ base_s
             +:+ " gwei");
  fee ← lift (dict_get summary "totalFeeEth");
  fee_s ← lift (fmt_fixed 6 fee);
  print ("💰 Total Fee: " +:+ fee_s +:+ " ETH").

(** [main] from its second statement on, for the parsed arguments. *)
Definition main_body (args : Namespace) : IO unit :=
  if negb (is_tx_hash (ns_tx_hash args))
  then _ ← print "❌ Invalid tx hash."; sys_exit 1
  else
    conn ← connect (ns_rpc args);
    _ ← print ("⚡ RPC latency: " +:+ format_fixed 3 conn.2 +:+ "s");
    summary ← fetch_summary conn.1 (ns_tx_hash args);
    if ns_json args
    then print (json_dumps summary 2 true)
    else print_text summary.

Definition main (argv : list string) : IO unit :=
  args ← lift (parse_args argv);
  main_body args.

(** Running the program: what it printed and the status it exits with. *)
Definition run (argv : list string) : Z * list string :=
  let r := main argv [] in (exit_status r.1, r.2).

End Program.

(** ** Vocabulary of the specification *)

(** A hexadecimal digit, by character code: [0-9], [a-f] or [A-F]. *)
Definition is_hex_digit (c : ascii) : bool :=
  let n := N_of_ascii c in
  ((48 <=? n) && (n <=? 57) || (97 <=? n) && (n <=? 102)
   || (65 <=? n) && (n <=? 70))%N.

(** A well-formed hash: 66 characters, the prefix [0x], then 64
    hexadecimal digits. *)
Definition well_formed_hash (v : string) : Prop :=
  String.length v = 66%nat
  /\ exists rest : string,
       v = "0x" +:+ rest
       /\ String.length rest = 64%nat
       /\ Forall (fun c => is_hex_digit c = true) (list_ascii_of_string rest).

(** A float of magnitude below [2^k]: finite, NaN or zero, never an
    infinity. *)
Definition below (k : Z) (x : spec_float) : Prop :=
  match x with
  | S754_finite _ m e => e <= 971 /\ Z.pos m < 2 ^ (k - e)
  | S754_infinity _ => False
  | _ => True
  end.

(** The float 100.0. *)
Definition hundred : spec_float := S754_finite false 7036874417766400 (-46).

(** The answers of a node that speaks the protocol: the chain id is
    returned, the gas price reaches the builder as an int, the quantities
    are unsigned 256-bit numbers and the fee fits in one. *)
Definition answers_in_range (w3 : Web3) (receipt : Receipt) (block : Block)
  : Prop :=
  (exists chain, eth_chain_id w3 = Ret chain)
  /\ 0 <= rc_gasUsed receipt <= MAX_WEI
  /\ (exists p, gas_price_of receipt = QInt p
                /\ 0 <= p <= MAX_WEI
                /\ rc_gasUsed receipt * p <= MAX_WEI)
  /\ 0 <= default 0 (blk_baseFeePerGas block) <= MAX_WEI.

(** The field names of the summary as the specification lists them. *)
Definition SPEC_FIELD_NAMES : list string :=
  [ "chainId"; "network"; "txHash"; "fromAddr"; "toAddr"; "blockNumber";
    "timestamp"; "confirmations"; "status"; "gasUsed"; "gasLimit";
    "gasEfficiency"; "gasPriceGwei"; "totalFeeEth"; "baseFeeGwei"; "miner";
    "explorer" ].

(** The field names of the summary as the dataclass declares them. *)
Definition TXSUMMARY_FIELD_NAMES : list string :=
  [ "chainId"; "network"; "txHash"; "from_addr"; "to_addr"; "blockNumber";
    "timestamp"; "confirmations"; "status"; "gasUsed"; "gasLimit";
    "gasEfficiency"; "gasPriceGwei"; "totalFeeEth"; "baseFeeGwei"; "miner";
    "explorer" ].

(** The keys of an object are exactly the given names. *)
Definition keys_exactly (names : list string) (d : dict) : Prop :=
  map fst d ≡ₚ names.

(** Keys in strictly increasing order. *)
Definition keys_increasing (keys : list string) : Prop :=
  StronglySorted (fun k1 k2 => String.compare k1 k2 = Lt) keys.

(** One member of a pretty-printed object: two spaces, the quoted key, a
    colon, a space and the value. *)
Definition member_line (m : string * string) : string :=
  "  " +:+ dquote +:+ m.1 +:+ dquote +:+ ": " +:+ m.2.

(** An object pretty-printed with an indentation of two spaces: one member
    per line between the braces, a comma after each member but the last. *)
Definition pretty_object (members : list (string * string)) : string :=
  "{" +:+ newline +:+ join ("," +:+ newline) (map member_line members)
  +:+ newline +:+ "}".

(** The members of the JSON object written for a summary, in the order
    they are written. *)
Definition json_members (float_repr : spec_float -> string) (s : TxSummary)
  : list (string * string) :=
  [ ("baseFeeGwei", floatstr float_repr (baseFeeGwei s));
    ("blockNumber", str_of_int (blockNumber s));
    ("chainId", str_of_int (chainId s));
    ("confirmations", str_of_int (confirmations s));
    ("explorer", encode_str (explorer s));
    ("from_addr", encode_str (from_addr s));
    ("gasEfficiency", floatstr float_repr (gasEfficiency s));
    ("gasLimit", str_of_int (gasLimit s));
    ("gasPriceGwei", floatstr float_repr (gasPriceGwei s));
    ("gasUsed", str_of_int (gasUsed s));
    ("miner", encode_str (miner s));
    ("network", encode_str (network s));
    ("status", str_of_int (status s));
    ("timestamp", str_of_int (timestamp s));
    ("to_addr", encode_str (to_addr s));
    ("totalFeeEth", floatstr float_repr (totalFeeEth s));
    ("txHash", encode_str (txHash s)) ].

(** ** Sample answers of a node *)

(** A hash in mixed case, used as a running example. *)
Definition sample_hash : string :=
  "0x00112233445566778899aAbBcCdDeEfF00112233445566778899aabbccddeeff".

Definition sample_addr : string := "0x52908400098527886E0F7030069857D2E4169EE7".

Definition sample_tx (gas : option Z) (to : option string) : Transaction :=
  {| tx_blockNumber := Some 95; tx_gas := gas; tx_from := sample_addr;
     tx_to := to |}.

Definition sample_receipt (used : Z) (effective : option Z)
    (legacy : option quantity) : Receipt :=
  {| rc_blockNumber := 95; rc_gasUsed := used; rc_status := 1;
     rc_effectiveGasPrice := effective; rc_gasPrice := legacy |}.

Definition sample_block (base_fee : option Z) (miner_ : option string) : Block :=
  {| blk_timestamp := 1700000000; blk_baseFeePerGas := base_fee;
     blk_miner := miner_ |}.

(** A reachable node that knows one mined transaction. *)
Definition sample_w3 (chain : Z) (tx : Transaction) (receipt : Receipt)
    (block : Block) (latest : Z) : Web3 :=
  {| is_connected := true;
     eth_chain_id := Ret chain;
     eth_get_transaction := fun _ => Ret tx;
     eth_get_transaction_receipt := fun _ => Ret receipt;
     eth_get_block := fun _ => Ret block;
     eth_block_number := Ret latest |}.

(** The summary built for the sample answers. *)
Definition sample_summary (chain : Z) (tx : Transaction) (receipt : Receipt)
    (block : Block) (latest : Z) : outcome TxSummary :=
  build_summary (sample_w3 chain tx receipt block latest) sample_hash
    tx receipt block latest.

(** The end-to-end scenario: a plain transfer on chain 137. *)
Definition scenario_tx : Transaction := sample_tx (Some 21000) (Some sample_addr).
Definition scenario_receipt : Receipt :=
  sample_receipt 21000 (Some 30000000000) None.
Definition scenario_block : Block := sample_block (Some 20000000000) None.
Definition scenario_w3 : Web3 :=
  sample_w3 137 scenario_tx scenario_receipt scenario_block 98.

(** A float formatter that knows the values of the scenario. *)
Definition sample_float_repr (x : spec_float) : string :=
  if SFeqb x (PyFloat.nearest 100 1) then "100.0"
  else if SFeqb x (PyFloat.nearest 30 1) then "30.0"
  else if SFeqb x (PyFloat.nearest 20 1) then "20.0"
  else if SFeqb x (PyFloat.nearest 63 100000) then "0.00063"
  else "0.0".

Definition sample_format_fixed (n : nat) (x : spec_float) : string :=
  if SFeqb x (PyFloat.nearest 1 4) then "0.250"
  else if SFeqb x (PyFloat.nearest 30 1) then "30.00"
  else if SFeqb x (PyFloat.nearest 20 1) then "20.00"
  else if SFeqb x (PyFloat.nearest 63 100000) then "0.000630"
  else "0.00".

(** A date formatter that knows the timestamp of the scenario, with the
    range of a 64-bit [time_t]. *)
Definition sample_strftime (v : pyval) : outcome string :=
  match v with
  | VInt t =>
      if (t <? - 2 ^ 63) || (2 ^ 63 <=? t)
      then Raise (OverflowError "timestamp out of range for platform time_t")
      else Ret "2023-11-14 22:13:20"
  | _ => Raise (TypeError "an integer is required")
  end.

Definition sample_env (w3 : Web3) : Env :=
  {| RPC_URL := None; provider := fun _ => w3; elapsed := PyFloat.nearest 1 4 |}.

Definition sample_args (tx_hash : string) (json : bool) : Namespace :=
  {| ns_tx_hash := tx_hash; ns_rpc := "https://rpc.example"; ns_json := json |}.

(** A node that cannot be reached. *)
Definition offline_w3 : Web3 :=
  {| is_connected := false;
     eth_chain_id := Raise (RPCError "connection refused");
     eth_get_transaction := fun _ => Raise (RPCError "connection refused");
     eth_get_transaction_receipt := fun _ => Raise (RPCError "connection refused");
     eth_get_block := fun _ => Raise (RPCError "connection refused");
     eth_block_number := Raise (RPCError "connection refused") |}.

(** A node whose transaction is not mined yet. *)
Definition pending_w3 : Web3 :=
  sample_w3 1
    {| tx_blockNumber := None; tx_gas := Some 21000; tx_from := sample_addr;
       tx_to := Some sample_addr |}
    scenario_receipt scenario_block 98.

(** One field of the summary a computation returns. *)
Definition field {A : Type} (f : TxSummary -> A) (o : outcome TxSummary)
  : outcome A :=
  obind o (fun s => Ret (f s)).

(** ** Vocabulary of the further properties *)

(** The lower-case form of an ASCII letter; other characters are kept. *)
Definition ascii_lower (c : ascii) : ascii :=
  let n := N_of_ascii c in
  if ((65 <=? n) && (n <=? 90))%N then ascii_of_N (n + 32) else c.

(** The upper-case form of an ASCII letter; other characters are kept. *)
Definition ascii_upper (c : ascii) : ascii :=
  let n := N_of_ascii c in
  if ((97 <=? n) && (n <=? 122))%N then ascii_of_N (n - 32) else c.

Fixpoint str_map (f : ascii -> ascii) (s : string) : string :=
  match s with
  | EmptyString => EmptyString
  | String c s' => String (f c) (str_map f s')
  end.

(** A float of sign [s] and of magnitude at most [N * 2^F]: a zero, or a
    finite number [m * 2^e] with [e <= F] and [m <= N * 2^(F - e)]. *)
Definition bounded_by (s : bool) (N F : Z) (x : spec_float) : Prop :=
  match x with
  | S754_zero s' => s' = s
  | S754_finite s' m e => s' = s /\ e <= F /\ Z.pos m <= N * 2 ^ (F - e)
  | _ => False
  end.

(** A float between 0.0 and the integer [N]: plus zero, or a positive
    finite [m * 2^e] with [m * 2^e <= N]. *)
Definition at_most (N : Z) (x : spec_float) : Prop :=
  match x with
  | S754_zero false => True
  | S754_finite false m e =>
      if 0 <=? e then Z.pos m * 2 ^ e <= N else Z.pos m <= N * 2 ^ (- e)
  | _ => False
  end.

(** A float that is plus zero or positive and finite. *)
Definition regular (x : spec_float) : Prop :=
  match x with
  | S754_zero false | S754_finite false _ _ => True
  | _ => False
  end.

(** The line [main] prints after connecting. *)
Definition latency_line (format_fixed : nat -> spec_float -> string)
    (env : Env) : string :=
  "⚡ RPC latency: " +:+ format_fixed 3%nat (elapsed env) +:+ "s".

Definition pending_line : string := "⏳ Pending transaction.".

(** The lines of the text report that [main] prints before it formats the
    timestamp. *)
Definition text_head (s : TxSummary) : list string :=
  [ "🌐 Network: " +:+ network s +:+ " (" +:+ str_of_int (chainId s) +:+ ")";
    "🔗 Explorer: " +:+ explorer s;
    "👤 From: " +:+ from_addr s;
    "🎯 To: " +:+ to_addr s;
    "📦 Status: " +:+ (if status s =? 0 then "Failed" else "Success");
    "⛏  Miner: " +:+ miner s ].

(** The lines of the text report from the block line on, for the date
    [when]. *)
Definition text_tail (float_repr : spec_float -> string)
    (format_fixed : nat -> spec_float -> string)
    (when : string) (s : TxSummary) : list string :=
  [ "🔢 Block: " +:+ str_of_int (blockNumber s) +:+ "  ⏱  "
      +:+ when +:+ " UTC";
    "🔁 Confirmations: " +:+ str_of_int (confirmations s);
    "⛽ Gas Used: " +:+ str_of_int (gasUsed s) +:+ "/"
      +:+ str_of_int (gasLimit s)
      +:+ " (" +:+ float_str float_repr (gasEfficiency s) +:+ "%)";
    "⛽ Gas Price: " +:+ format_fixed 2%nat (gasPriceGwei s)
      +:+ " gwei  BaseFee: " +:+ format_fixed 2%nat (baseFeeGwei s) +:+ " gwei";
    "💰 Total Fee: " +:+ format_fixed 6%nat (totalFeeEth s) +:+ " ETH" ].

(** The lines of the text report of a summary whose timestamp is written
    [when]. *)
Definition text_lines (float_repr : spec_float -> string)
    (format_fixed : nat -> spec_float -> string)
    (when : string) (s : TxSummary) : list string :=
  (text_head s ++ text_tail float_repr format_fixed when s)%list.


(** The summary of the end-to-end scenario, for a block of timestamp
    [t]. *)
Definition scenario_result (t : Z) : TxSummary :=
  {| chainId := 137;
     network := "Polygon";
     txHash := sample_hash;
     from_addr := sample_addr;
     to_addr := sample_addr;
     blockNumber := 95;
     timestamp := t;
     confirmations := 3;
     status := 1;
     gasUsed := 21000;
     gasLimit := 21000;
     gasEfficiency := PyFloat.nearest 100 1;
     gasPriceGwei := PyFloat.nearest 30 1;
     totalFeeEth := PyFloat.nearest 63 100000;
     baseFeeGwei := PyFloat.nearest 20 1;
     miner := "N/A";
     explorer := "https://polygonscan.com/tx/" +:+ sample_hash |}.

(** The node of the scenario with a block whose timestamp no platform
    can turn into a date. *)
Definition late_block : Block :=
  {| blk_timestamp := 1000000000000000000000000000000;
     blk_baseFeePerGas := Some 20000000000;
     blk_miner := None |}.
Definition late_w3 : Web3 :=
  sample_w3 137 scenario_tx scenario_receipt late_block 98.

(** * Properties *)

(** ** Hash validation *)

Lemma char_in_HEX_CHARS (c : ascii) : char_in c HEX_CHARS = is_hex_digit c.
Proof. destruct c as [[] [] [] [] [] [] [] []]; reflexivity. Qed.

Lemma str_all_Forall (p : ascii -> bool) (v : string) :
  str_all p v = true <-> Forall (fun c => p c = true) (list_ascii_of_string v).
Proof.
  unfold str_all. rewrite forallb_forall, Forall_forall.
  split; intros H c Hc; apply H; now apply list_elem_of_In.
Qed.

Lemma prefix_0x (v : string) :
  String.prefix "0x" v = true <-> exists rest, v = "0x" +:+ rest.
Proof.
  split.
  - destruct v as [|a [|b rest]]; cbn [String.prefix]; try discriminate.
    + destruct (ascii_dec "0" a); discriminate.
    + destruct (ascii_dec "0" a) as [<-|]; [|discriminate].
      destruct (ascii_dec "x" b) as [<-|]; [|discriminate].
      intros _. now exists rest.
  - intros [rest ->]. simpl. now destruct rest.
Qed.

(** C1. [is_tx_hash] accepts exactly the strings of 66 characters that
    begin with [0x] and continue with 64 hexadecimal digits of either case;
    any other string is rejected. *)
Theorem C1_is_tx_hash_spec (v : string) :
  (is_tx_hash v = true <-> well_formed_hash v)
  /\ (is_tx_hash v = false <-> ~ well_formed_hash v).
Proof.
  assert (Hiff : is_tx_hash v = true <-> well_formed_hash v).
  { unfold is_tx_hash, well_formed_hash.
    rewrite !andb_true_iff, Nat.eqb_eq, prefix_0x, str_all_Forall.
    split.
    - intros [[[rest ->] Hlen] Hall]. split; [exact Hlen|].
      exists rest. split; [reflexivity|].
      change (S (S (String.length rest)) = 66%nat) in Hlen.
      change (Forall (fun c => char_in c HEX_CHARS = true)
                (list_ascii_of_string rest)) in Hall.
      split; [lia|].
      eapply Forall_impl; [exact Hall|].
      intros c Hc. now rewrite <- char_in_HEX_CHARS.
    - intros [Hlen (rest & -> & _ & Hall)].
      split; [split; [now exists rest | exact Hlen]|].
      change (Forall (fun c => char_in c HEX_CHARS = true)
                (list_ascii_of_string rest)).
      eapply Forall_impl; [exact Hall|].
      intros c Hc. now rewrite char_in_HEX_CHARS. }
  split; [exact Hiff|].
  rewrite <- Hiff. destruct (is_tx_hash v); split; congruence.
Qed.

Lemma C1_is_tx_hash_spec_witness : is_tx_hash sample_hash = true.
Proof.
  apply (proj2 (proj1 (C1_is_tx_hash_spec sample_hash))).
  split; [reflexivity|].
  exists "00112233445566778899aAbBcCdDeEfF00112233445566778899aabbccddeeff".
  split; [reflexivity|]. split; [reflexivity|].
  simpl. repeat constructor.
Defined.

(** ** Building the summary *)

(** What a returned summary says about the computations behind it. *)
Lemma build_summary_Ret (w3 : Web3) (tx_hash : string) (tx : Transaction)
    (receipt : Receipt) (block : Block) (latest : Z) (s : TxSummary) :
  build_summary w3 tx_hash tx receipt block latest = Ret s <->
  exists gas_eff chain,
    gas_eff_of (rc_gasUsed receipt) (int_or (tx_gas tx) 0) = Ret gas_eff
    /\ eth_chain_id w3 = Ret chain
    /\ PyFloat.round gas_eff 2 = Ret (gasEfficiency s)
    /\ float_from_quantity (gas_price_of receipt) "gwei"
       = Ret (gasPriceGwei s)
    /\ obind (int_times (rc_gasUsed receipt) (gas_price_of receipt))
             (fun total_fee => float_from_quantity total_fee "ether")
       = Ret (totalFeeEth s)
    /\ float_from_wei (default 0 (blk_baseFeePerGas block)) "gwei"
       = Ret (baseFeeGwei s)
    /\ chainId s = chain
    /\ network s = default ("Chain " +:+ str_of_int chain) (NETWORKS !! chain)
    /\ txHash s = tx_hash
    /\ from_addr s = tx_from tx
    /\ to_addr s = str_or (tx_to tx) "(contract creation)"
    /\ blockNumber s = rc_blockNumber receipt
    /\ timestamp s = blk_timestamp block
    /\ confirmations s = Z.max 0 (latest - rc_blockNumber receipt)
    /\ status s = rc_status receipt
    /\ gasUsed s = rc_gasUsed receipt
    /\ gasLimit s = int_or (tx_gas tx) 0
    /\ miner s = default "N/A" (blk_miner block)
    /\ explorer s = explorer_url chain tx_hash.
Proof.
  unfold build_summary. split.
  - destruct (gas_eff_of _ _) as [gas_eff| |] eqn:Hg; try discriminate.
    cbn [obind].
    destruct (int_times (rc_gasUsed receipt) (gas_price_of receipt))
      as [total_fee| |] eqn:Ht; try discriminate.
    destruct (eth_chain_id w3) as [chain| |] eqn:Hc; try discriminate.
    cbn [obind].
    destruct (PyFloat.round gas_eff 2) as [e| |] eqn:Hr; try discriminate.
    destruct (float_from_quantity (gas_price_of receipt) "gwei")
      as [p| |] eqn:Hp; try discriminate.
    destruct (float_from_quantity total_fee "ether") as [f| |] eqn:Hf;
      try discriminate.
    destruct (float_from_wei (default 0 (blk_baseFeePerGas block)) "gwei")
      as [b| |] eqn:Hb; try discriminate.
    cbn [obind]. intros [= <-]. exists gas_eff, chain. cbn.
    repeat split; assumption || reflexivity.
  - intros (gas_eff & chain & -> & -> & Hr & Hp & Hf & Hb & H).
    cbn [obind].
    destruct (int_times (rc_gasUsed receipt) (gas_price_of receipt))
      as [total_fee| |]; try discriminate.
    cbn [obind] in Hf |- *. rewrite Hr, Hp, Hf, Hb. cbn [obind].
    destruct s; cbn in *. f_equal.
    destruct H as (-> & -> & -> & -> & -> & -> & -> & -> & -> & -> & -> & -> & ->).
    reflexivity.
Qed.

(** [float(Web3.from_wei(n, unit))] is the float nearest to [n] over the
    unit, whenever it returns; it returns for every amount in range. *)
Lemma float_from_wei_unit (n : Z) (unit : string) (unit_value : Z) :
  units !! unit = Some unit_value ->
  PyFloat.nearest 0 unit_value = PyFloat.pos_zero ->
  (forall x, float_from_wei n unit = Ret x -> x = PyFloat.nearest n unit_value)
  /\ (0 <= n <= MAX_WEI ->
      float_from_wei n unit = Ret (PyFloat.nearest n unit_value)).
Proof.
  intros Hu H0. unfold float_from_wei, from_wei. rewrite Hu.
  destruct (n =? 0) eqn:Hn.
  - apply Z.eqb_eq in Hn. subst n. rewrite H0.
    split; [now intros x [= <-] | reflexivity].
  - destruct ((n <? MIN_WEI) || (MAX_WEI <? n)) eqn:Hr; cbn.
    + split; [discriminate|]. intros [Hlo Hhi].
      apply orb_true_iff in Hr. unfold MIN_WEI in Hr.
      destruct Hr as [Hr|Hr]; apply Z.ltb_lt in Hr; lia.
    + split; [now intros x [= <-] | reflexivity].
Qed.

Lemma float_from_wei_gwei (n : Z) :
  (forall x, float_from_wei n "gwei" = Ret x -> x = PyFloat.nearest n (10 ^ 9))
  /\ (0 <= n <= MAX_WEI ->
      float_from_wei n "gwei" = Ret (PyFloat.nearest n (10 ^ 9))).
Proof. apply float_from_wei_unit; reflexivity. Qed.

Lemma float_from_wei_ether (n : Z) :
  (forall x, float_from_wei n "ether" = Ret x -> x = PyFloat.nearest n (10 ^ 18))
  /\ (0 <= n <= MAX_WEI ->
      float_from_wei n "ether" = Ret (PyFloat.nearest n (10 ^ 18))).
Proof. apply float_from_wei_unit; reflexivity. Qed.

(** Only an int is converted: a [str] makes [from_wei] raise. *)
Lemma float_from_quantity_Ret (q : quantity) (unit : string) (x : spec_float) :
  float_from_quantity q unit = Ret x ->
  exists n, q = QInt n /\ float_from_wei n unit = Ret x.
Proof.
  destruct q as [n|h]; cbn [float_from_quantity].
  - intros H. now exists n.
  - destruct (units !! unit); discriminate.
Qed.

(** A summary is returned only for a gas price that is an int; its two
    price fields are then the conversions of that int and of the fee. *)
Lemma build_summary_price (w3 : Web3) (tx_hash : string) (tx : Transaction)
    (receipt : Receipt) (block : Block) (latest : Z) (s : TxSummary) :
  build_summary w3 tx_hash tx receipt block latest = Ret s ->
  exists p, gas_price_of receipt = QInt p
            /\ float_from_wei p "gwei" = Ret (gasPriceGwei s)
            /\ float_from_wei (rc_gasUsed receipt * p) "ether"
               = Ret (totalFeeEth s).
Proof.
  intros Hs. apply build_summary_Ret in Hs.
  destruct Hs as (g & chain & _ & _ & _ & Hp & Hf & _).
  apply float_from_quantity_Ret in Hp. destruct Hp as (p & Hq & Hp).
  exists p. rewrite Hq in Hf |- *. cbn [int_times obind] in Hf.
  split; [reflexivity|]. split; [exact Hp|exact Hf].
Qed.

(** ** Floats stay finite *)

(** Rounding to binary64 never overflows on magnitudes far below the
    largest float; the lemmas follow the steps of [binary_round_aux]. *)

Lemma digits2_pos_size (p : positive) : digits2_pos p = Pos.size p.
Proof. induction p; simpl; congruence. Qed.

(* m < 2^j bounds the number of digits *)
Lemma Zdigits2_le (m j : Z) : 0 <= m -> 0 <= j -> m < 2 ^ j -> Zdigits2 m <= j.
Proof.
  intros Hm Hj Hlt. destruct m as [|p|p]; simpl; [lia| |lia].
  rewrite digits2_pos_size.
  pose proof (Pos.size_le p) as Hs.
  assert (H : 2 ^ Z.pos (Pos.size p) <= 2 * Z.pos p).
  { change (2 * Z.pos p) with (Z.pos p~0). rewrite <- (Pos2Z.inj_pow 2). lia. }
  destruct (Z_lt_le_dec j (Z.pos (Pos.size p))) as [Hlt'|]; [|lia].
  exfalso.
  assert (2 ^ (j + 1) <= 2 ^ Z.pos (Pos.size p)) by (apply Z.pow_le_mono_r; lia).
  rewrite Z.pow_add_r in H0 by lia. lia.
Qed.

Lemma shr_1_m (r : shr_record) : 0 <= shr_m r -> shr_m (shr_1 r) = shr_m r / 2.
Proof.
  destruct r as [m r s]. simpl. intros Hm.
  destruct m as [|[p|p|]|p]; simpl; try reflexivity; try lia.
  - rewrite Pos2Z.inj_xI. apply Z.div_unique with 1; lia.
  - rewrite Pos2Z.inj_xO. apply Z.div_unique with 0; lia.
Qed.

Lemma iter_shr_1_m (p : positive) (r : shr_record) :
  0 <= shr_m r -> shr_m (SpecFloat.iter_pos shr_1 p r) = shr_m r / 2 ^ Z.pos p.
Proof.
  revert r. induction p as [p IH|p IH|]; intros r Hr; simpl SpecFloat.iter_pos.
  - assert (H1 : 0 <= shr_m (shr_1 r)) by (rewrite shr_1_m by lia; apply Z.div_pos; lia).
    assert (H2 : 0 <= shr_m (SpecFloat.iter_pos shr_1 p (shr_1 r)))
      by (rewrite IH by lia; apply Z.div_pos; [lia|apply Z.pow_pos_nonneg; lia]).
    rewrite IH, IH, shr_1_m by lia.
    rewrite !Z.div_div by (try apply Z.pow_pos_nonneg; lia).
    f_equal. rewrite Pos2Z.inj_xI, <- Z.pow_add_r, <- Z.pow_succ_r by lia. f_equal. lia.
  - assert (H2 : 0 <= shr_m (SpecFloat.iter_pos shr_1 p r))
      by (rewrite IH by lia; apply Z.div_pos; [lia|apply Z.pow_pos_nonneg; lia]).
    rewrite IH, IH by lia.
    rewrite !Z.div_div by (try apply Z.pow_pos_nonneg; lia).
    f_equal. rewrite Pos2Z.inj_xO, <- Z.pow_add_r by lia. f_equal. lia.
  - rewrite shr_1_m by lia. reflexivity.
Qed.

Lemma shr_record_of_loc_m (m : Z) (l : location) : shr_m (shr_record_of_loc m l) = m.
Proof. destruct l as [|[]]; reflexivity. Qed.

Lemma shr_fexp_below (m e : Z) (l : location) (k : Z) :
  0 <= k <= 1024 -> 0 <= m -> e <= k -> e <= 971 -> m < 2 ^ (k - e) ->
  0 <= shr_m (fst (shr_fexp 53 1024 m e l))
  /\ shr_m (fst (shr_fexp 53 1024 m e l)) < 2 ^ (k - snd (shr_fexp 53 1024 m e l))
  /\ snd (shr_fexp 53 1024 m e l) <= k
  /\ snd (shr_fexp 53 1024 m e l) <= 971.
Proof.
  intros Hk Hm Hek He Hlt.
  assert (Hd : Zdigits2 m <= k - e) by (apply Zdigits2_le; lia).
  unfold shr_fexp, shr.
  set (n := fexp 53 1024 (Zdigits2 m + e) - e).
  assert (Hn : n <= k - e /\ e + n <= 971).
  { unfold n, fexp, emin. lia. }
  destruct n as [|p|p] eqn:En; cbn [fst snd]; rewrite ?shr_record_of_loc_m.
  - repeat split; lia.
  - rewrite iter_shr_1_m by (rewrite shr_record_of_loc_m; lia).
    rewrite shr_record_of_loc_m.
    assert (Hp : 0 < 2 ^ Z.pos p) by (apply Z.pow_pos_nonneg; lia).
    repeat split; try lia.
    + apply Z.div_pos; lia.
    + apply Z.div_lt_upper_bound; [lia|].
      rewrite <- Z.pow_add_r by lia.
      replace (Z.pos p + (k - (e + Z.pos p))) with (k - e) by lia. exact Hlt.
  - repeat split; lia.
Qed.

Lemma round_nearest_even_le (m : Z) (l : location) :
  m <= round_nearest_even m l <= m + 1.
Proof. destruct l as [|[]]; simpl; try destruct (Z.even m); lia. Qed.

Lemma binary_round_aux_below (s : bool) (m e : Z) (l : location) (k : Z) :
  0 <= k <= 1023 -> 0 <= m -> e <= k -> e <= 971 -> m < 2 ^ (k - e) ->
  below (k + 1) (binary_round_aux 53 1024 s m e l).
Proof.
  intros Hk Hm Hek He Hlt. unfold binary_round_aux.
  pose proof (shr_fexp_below m e l k ltac:(lia) Hm Hek He Hlt) as H1.
  destruct (shr_fexp 53 1024 m e l) as [r1 e1]. cbn [fst snd] in H1.
  destruct H1 as (H1a & H1b & H1c & H1d).
  pose proof (round_nearest_even_le (shr_m r1) (loc_of_shr_record r1)) as Hr.
  set (m1 := round_nearest_even (shr_m r1) (loc_of_shr_record r1)) in *.
  assert (Hm1 : m1 < 2 ^ (k + 1 - e1)).
  { replace (k + 1 - e1) with (Z.succ (k - e1)) by lia.
    rewrite Z.pow_succ_r by lia. lia. }
  pose proof (shr_fexp_below m1 e1 loc_Exact (k + 1)
                ltac:(lia) ltac:(lia) ltac:(lia) H1d Hm1) as H2.
  destruct (shr_fexp 53 1024 m1 e1 loc_Exact) as [r2 e2]. cbn [fst snd] in H2.
  destruct H2 as (H2a & H2b & H2c & H2d).
  destruct (shr_m r2) as [|p|p]; [exact I| |lia].
  replace (e2 <=? 1024 - 53) with true by (symmetry; apply Z.leb_le; lia).
  split; assumption.
Qed.

Lemma below_not_inf (k : Z) (x : spec_float) : below k x -> PyFloat.is_inf x = false.
Proof. destruct x; simpl; tauto. Qed.

Lemma below_mono (k k' : Z) (x : spec_float) : k <= k' -> below k x -> below k' x.
Proof.
  intros Hk. destruct x as [| | |s m e]; simpl; try tauto.
  intros [He Hm]. split; [exact He|].
  eapply Z.lt_le_trans; [exact Hm|].
  destruct (Z_lt_le_dec (k - e) 0) as [Hneg|Hpos].
  - rewrite (Z.pow_neg_r 2 (k - e)) in Hm by lia. lia.
  - apply Z.pow_le_mono_r; lia.
Qed.

Lemma SFdiv_core_binary_below (m1 m2 : positive) (k : Z) :
  0 <= k -> Z.pos m1 < 2 ^ k ->
  let r := SFdiv_core_binary 53 1024 (Z.pos m1) 0 (Z.pos m2) 0 in
  0 <= fst (fst r) /\ snd (fst r) <= 0 /\ fst (fst r) < 2 ^ (k - snd (fst r)).
Proof.
  intros Hk Hlt. unfold SFdiv_core_binary.
  set (e' := Z.min _ _).
  assert (He' : e' <= 0) by (unfold e'; lia).
  set (s := 0 - 0 - e'). 
  set (m' := match s with Z.pos _ => Z.shiftl (Z.pos m1) s | 0 => Z.pos m1 | Z.neg _ => 0 end).
  assert (Hm' : 0 <= m' /\ m' < 2 ^ (k - e')).
  { unfold m'. destruct s as [|p|p] eqn:Es.
    - replace (k - e') with k by lia. lia.
    - rewrite Z.shiftl_mul_pow2 by lia.
      replace (k - e') with (k + Z.pos p) by lia.
      rewrite Z.pow_add_r by lia.
      assert (0 < 2 ^ Z.pos p) by (apply Z.pow_pos_nonneg; lia). nia.
    - lia. }
  pose proof (Z_div_mod m' (Z.pos m2) ltac:(lia)) as Hdiv.
  destruct (Z.div_eucl m' (Z.pos m2)) as [q r]. cbn [fst snd].
  destruct Hdiv as [Heq Hr].
  assert (0 <= q) by nia.
  repeat split; try lia. nia.
Qed.

Lemma nearest_below (a b k : Z) :
  b <> 0 -> 0 <= k <= 1023 -> Z.abs a < 2 ^ k ->
  below (k + 1) (PyFloat.nearest a b).
Proof.
  intros Hb Hk Ha. unfold PyFloat.nearest, PyFloat.exact.
  destruct a as [|pa|pa]; destruct b as [|pb|pb]; try contradiction;
    try exact I; cbn [SFdiv]; unfold PyFloat.prec, PyFloat.emax;
    (pose proof (SFdiv_core_binary_below pa pb k ltac:(lia) Ha) as Hc;
     destruct (SFdiv_core_binary 53 1024 (Z.pos pa) 0 (Z.pos pb) 0) as [[mz ez] lz];
     cbn [fst snd] in Hc; destruct Hc as (H0 & He & Hlt);
     apply binary_round_aux_below; lia).
Qed.

Lemma mul_hundred_below (x : spec_float) (k : Z) :
  0 <= k <= 1016 -> below k x -> below (k + 8) (PyFloat.mul x hundred).
Proof.
  intros Hk Hx. destruct x as [s|s| |s m e]; try exact I; try contradiction.
  destruct Hx as [He Hm]. unfold PyFloat.mul, hundred, SFmul, PyFloat.prec, PyFloat.emax.
  assert (Hke : 1 <= k - e).
  { destruct (Z_lt_le_dec (k - e) 1) as [Hlt|]; [|lia].
    assert (2 ^ (k - e) <= 1); [|lia].
    destruct (Z.eq_dec (k - e) 0) as [->|]; [reflexivity|].
    rewrite Z.pow_neg_r by lia. lia. }
  replace (k + 8) with (k + 7 + 1) by lia.
  apply binary_round_aux_below; try lia.
  rewrite Pos2Z.inj_mul.
  replace (k + 7 - (e + -46)) with ((k - e) + 53) by lia.
  rewrite Z.pow_add_r by lia.
  assert (7036874417766400 < 2 ^ 53) by reflexivity.
  assert (0 < 2 ^ (k - e)) by (apply Z.pow_pos_nonneg; lia). nia.
Qed.

Lemma div_half_even_le (a b : Z) :
  0 <= a -> 0 < b -> 0 <= PyFloat.div_half_even a b <= a / b + 1.
Proof.
  intros Ha Hb. unfold PyFloat.div_half_even.
  assert (0 <= a / b) by (apply Z.div_pos; lia).
  destruct (2 * (a mod b) ?= b); try destruct (Z.even (a / b)); lia.
Qed.

Lemma scaled_half_even_lt (m : positive) (e k : Z) :
  0 <= k -> Z.pos m < 2 ^ (k - e) ->
  0 <= PyFloat.scaled_half_even m e 2 < 2 ^ (k + 7).
Proof.
  intros Hk Hm. unfold PyFloat.scaled_half_even.
  assert (Hke : 1 <= k - e).
  { destruct (Z_lt_le_dec (k - e) 1) as [Hlt|]; [|lia].
    assert (2 ^ (k - e) <= 1); [|lia].
    destruct (Z.eq_dec (k - e) 0) as [->|]; [reflexivity|].
    rewrite Z.pow_neg_r by lia. lia. }
  assert (H7 : 2 ^ (k + 7) = 128 * 2 ^ k) by (rewrite Z.pow_add_r by lia; change (2 ^ 7) with 128; lia).
  assert (Hk0 : 0 < 2 ^ k) by (apply Z.pow_pos_nonneg; lia).
  change (10 ^ 2) with 100.
  destruct (Z.leb_spec 0 e) as [He|He].
  - assert (He0 : 0 < 2 ^ e) by (apply Z.pow_pos_nonneg; lia).
    assert (Hsplit : 2 ^ k = 2 ^ (k - e) * 2 ^ e)
      by (rewrite <- Z.pow_add_r by lia; f_equal; lia).
    rewrite H7, Hsplit. split; nia.
  - assert (He0 : 0 < 2 ^ (- e)) by (apply Z.pow_pos_nonneg; lia).
    pose proof (div_half_even_le (Z.pos m * 100) (2 ^ (- e)) ltac:(lia) He0) as Hd.
    assert (Hq : Z.pos m * 100 / 2 ^ (- e) < 100 * 2 ^ k).
    { apply Z.div_lt_upper_bound; [lia|].
      assert (Hsplit : 2 ^ (k - e) = 2 ^ (- e) * 2 ^ k)
        by (rewrite <- Z.pow_add_r by lia; f_equal; lia).
      nia. }
    lia.
Qed.

Lemma round_returns (x : spec_float) (k : Z) :
  0 <= k <= 1015 -> below k x ->
  exists r, PyFloat.round x 2 = Ret r /\ below (k + 8) r.
Proof.
  intros Hk Hx. destruct x as [s|s| |s m e]; try contradiction.
  - exists (S754_zero s). split; [reflexivity|exact I].
  - exists S754_nan. split; [reflexivity|exact I].
  - destruct Hx as [He Hm]. unfold PyFloat.round.
    pose proof (scaled_half_even_lt m e k ltac:(lia) Hm) as Hn.
    set (n := PyFloat.scaled_half_even m e 2) in *.
    set (r := if n =? 0 then S754_zero s else PyFloat.nearest (if s then - n else n) (10 ^ 2)).
    assert (Hr : below (k + 8) r).
    { unfold r. destruct (n =? 0); [exact I|].
      replace (k + 8) with (k + 7 + 1) by lia.
      apply nearest_below; [discriminate|lia|].
      destruct s; lia. }
    exists r. split; [|exact Hr].
    now rewrite (below_not_inf _ _ Hr).
Qed.

Lemma gas_eff_of_returns (gasUsed_ gas_limit : Z) :
  0 <= gasUsed_ <= MAX_WEI ->
  exists g, gas_eff_of gasUsed_ gas_limit = Ret g /\ below 265 g.
Proof.
  intros Hu. unfold gas_eff_of.
  destruct (Z.eqb_spec gas_limit 0) as [|Hne]; cbn [negb].
  - exists PyFloat.pos_zero. split; [reflexivity|exact I].
  - assert (Hq : below (256 + 1) (PyFloat.nearest gasUsed_ gas_limit)).
    { apply nearest_below; [exact Hne|lia|]. unfold MAX_WEI in Hu. lia. }
    unfold PyFloat.int_truediv.
    destruct (Z.eqb_spec gas_limit 0) as [|_]; [contradiction|].
    rewrite (below_not_inf _ _ Hq). cbn [obind].
    exists (PyFloat.mul (PyFloat.nearest gasUsed_ gas_limit) hundred).
    split; [reflexivity|].
    apply (mul_hundred_below _ 257); [lia|exact Hq].
Qed.

(** The builder returns a summary for every in-range answer. *)
Lemma build_summary_returns (w3 : Web3) (tx_hash : string) (tx : Transaction)
    (receipt : Receipt) (block : Block) (latest : Z) :
  answers_in_range w3 receipt block ->
  exists s, build_summary w3 tx_hash tx receipt block latest = Ret s.
Proof.
  intros ([chain Hc] & Hu & (p & Hq & Hp & Hf) & Hb).
  destruct (gas_eff_of_returns (rc_gasUsed receipt) (int_or (tx_gas tx) 0) Hu)
    as (g & Hg & Hbg).
  destruct (round_returns g 265 ltac:(lia) Hbg) as (r & Hr & _).
  unfold build_summary. rewrite Hg, Hq, Hc.
  cbn [obind int_times float_from_quantity]. rewrite Hr.
  rewrite (proj2 (float_from_wei_gwei _) Hp).
  rewrite (proj2 (float_from_wei_ether _)) by nia.
  rewrite (proj2 (float_from_wei_gwei _) Hb).
  cbn [obind]. eexists. reflexivity.
Qed.

(** The answers of the scenario are in range, and its summary is the one
    the specification expects. *)
Lemma scenario_in_range :
  answers_in_range scenario_w3 scenario_receipt scenario_block.
Proof.
  split; [now exists 137|]. split; [vm_compute; split; discriminate|].
  split; [exists 30000000000|]; vm_compute; repeat split; discriminate.
Qed.

Lemma scenario_summary :
  exists s,
    build_summary scenario_w3 sample_hash scenario_tx scenario_receipt
      scenario_block 98 = Ret s
    /\ network s = "Polygon"
    /\ gasEfficiency s = PyFloat.nearest 100 1
    /\ gasPriceGwei s = PyFloat.nearest 30 1
    /\ baseFeeGwei s = PyFloat.nearest 20 1
    /\ totalFeeEth s = PyFloat.nearest 63 100000
    /\ confirmations s = 3
    /\ status s = 1.
Proof. eexists. split; [reflexivity|]. repeat split. Qed.

Lemma scenario_result_built :
  build_summary scenario_w3 sample_hash scenario_tx scenario_receipt
    scenario_block 98 = Ret (scenario_result 1700000000)
  /\ build_summary late_w3 sample_hash scenario_tx scenario_receipt
       late_block 98 = Ret (scenario_result 1000000000000000000000000000000).
Proof. split; reflexivity. Qed.

(** ** Gas efficiency *)

Lemma int_or_zero (x : option Z) : int_or x 0 = default 0 x.
Proof. destruct x as [n|]; cbn; [|reflexivity]. destruct (Z.eqb_spec n 0); congruence. Qed.

(** The int 100 is a float as it stands. *)
Lemma of_int_100 : PyFloat.of_int 100 = Ret (PyFloat.nearest 100 1).
Proof. reflexivity. Qed.



(** ** Confirmations *)

(** C4. The builder returns for in-range answers, and in every summary it
    returns the [confirmations] field is [max(0, latest - blockNumber)], so
    it is never negative; a latest block of 100 gives 5 confirmations to a
    transaction of block 95, and a latest block of 90 gives 0. *)
Theorem C4_confirmations :
  (forall w3 tx_hash tx receipt block latest,
      (answers_in_range w3 receipt block ->
       exists s, build_summary w3 tx_hash tx receipt block latest = Ret s)
      /\ forall s,
          build_summary w3 tx_hash tx receipt block latest = Ret s ->
          confirmations s = Z.max 0 (latest - blockNumber s)
          /\ 0 <= confirmations s)
  /\ field confirmations
       (sample_summary 1 (sample_tx (Some 21000) None)
          (sample_receipt 21000 None None) (sample_block None None) 100)
     = Ret 5
  /\ field confirmations
       (sample_summary 1 (sample_tx (Some 21000) None)
          (sample_receipt 21000 None None) (sample_block None None) 90)
     = Ret 0.
Proof.
  split; [|split; reflexivity].
  intros w3 tx_hash tx receipt block latest.
  split; [apply build_summary_returns|]. intros s Hs.
  apply build_summary_Ret in Hs. destruct Hs as (g & chain & H).
  assert (Hc : confirmations s = Z.max 0 (latest - rc_blockNumber receipt))
    by tauto.
  assert (Hb : blockNumber s = rc_blockNumber receipt) by tauto.
  rewrite Hc, Hb. split; [reflexivity | apply Z.le_max_l].
Qed.

Lemma C4_confirmations_witness :
  exists s, sample_summary 1 (sample_tx (Some 21000) None)
              (sample_receipt 21000 None None) (sample_block None None) 90
            = Ret s
            /\ confirmations s = Z.max 0 (90 - blockNumber s)
            /\ 0 <= confirmations s.
Proof.
  eexists. split; [reflexivity|].
  apply (proj2 (proj1 C4_confirmations
           (sample_w3 1 (sample_tx (Some 21000) None)
              (sample_receipt 21000 None None) (sample_block None None) 90)
           sample_hash (sample_tx (Some 21000) None)
           (sample_receipt 21000 None None) (sample_block None None) 90)).
  reflexivity.
Defined.


(** ** Gas price and fee *)

(** C5. The fallback misses the claim.  A receipt without
    [effectiveGasPrice] whose [gasPrice] is the hexadecimal string of the
    node has that string as its gas price, and the builder returns no
    summary for it.  For 30 gwei sent as ["0x6fc23ac00"] with 21000 gas
    used, where the claim gives [gasPriceGwei] 30.0 and [totalFeeEth]
    0.00063, the fee of line 84 is the string repeated and the conversion
    of line 103 raises [TypeError]. *)
Theorem C5_legacy_gas_price_raises :
  (forall w3 tx_hash tx receipt block latest h,
      rc_effectiveGasPrice receipt = None ->
      rc_gasPrice receipt = Some (QStr h) ->
      gas_price_of receipt = QStr h
      /\ forall s, build_summary w3 tx_hash tx receipt block latest <> Ret s)
  /\ gas_price_of (sample_receipt 21000 None (Some (QStr "0x6fc23ac00")))
     = QStr "0x6fc23ac00"
  /\ int_times 2 (QStr "0x6fc23ac00") = Ret (QStr "0x6fc23ac000x6fc23ac00")
  /\ sample_summary 137 (sample_tx (Some 21000) (Some sample_addr))
       (sample_receipt 21000 None (Some (QStr "0x6fc23ac00")))
       (sample_block (Some 20000000000) None) 98
     = Raise (TypeError
                "'<' not supported between instances of 'str' and 'int'").
Proof.
  split; [|split; [reflexivity|split; [reflexivity|]]].
  - intros w3 tx_hash tx receipt block latest h He Hp.
    assert (Hq : gas_price_of receipt = QStr h).
    { unfold gas_price_of. now rewrite He, Hp. }
    split; [exact Hq|]. intros s Hs.
    apply build_summary_price in Hs. destruct Hs as (p & Hq' & _).
    congruence.
  - reflexivity.
Qed.

Lemma C5_legacy_gas_price_raises_witness :
  gas_price_of (sample_receipt 21000 None (Some (QStr "0x6fc23ac00")))
  = QStr "0x6fc23ac00"
  /\ forall s,
       sample_summary 137 (sample_tx (Some 21000) (Some sample_addr))
         (sample_receipt 21000 None (Some (QStr "0x6fc23ac00")))
         (sample_block (Some 20000000000) None) 98
       <> Ret s.
Proof.
  pose proof (proj1 C5_legacy_gas_price_raises
           (sample_w3 137 (sample_tx (Some 21000) (Some sample_addr))
              (sample_receipt 21000 None (Some (QStr "0x6fc23ac00")))
              (sample_block (Some 20000000000) None) 98)
           sample_hash (sample_tx (Some 21000) (Some sample_addr))
           (sample_receipt 21000 None (Some (QStr "0x6fc23ac00")))
           (sample_block (Some 20000000000) None) 98
           "0x6fc23ac00" eq_refl eq_refl) as [Hq Hs].
  split; [exact Hq|exact Hs].
Defined.

(** C10. A receipt with neither [effectiveGasPrice] nor [gasPrice] has gas
    price 0: both conversions return 0.0, the builder returns for in-range
    answers, and [gasPriceGwei] and [totalFeeEth] are 0.0 in every summary
    it returns. *)
Theorem C10_no_gas_price (receipt : Receipt) :
  rc_effectiveGasPrice receipt = None ->
  rc_gasPrice receipt = None ->
  gas_price_of receipt = QInt 0
  /\ float_from_quantity (gas_price_of receipt) "gwei" = Ret PyFloat.pos_zero
  /\ obind (int_times (rc_gasUsed receipt) (gas_price_of receipt))
           (fun total_fee => float_from_quantity total_fee "ether")
     = Ret PyFloat.pos_zero
  /\ forall w3 tx_hash tx block latest,
       (answers_in_range w3 receipt block ->
        exists s, build_summary w3 tx_hash tx receipt block latest = Ret s)
       /\ forall s,
           build_summary w3 tx_hash tx receipt block latest = Ret s ->
           gasPriceGwei s = PyFloat.pos_zero
           /\ totalFeeEth s = PyFloat.pos_zero.
Proof.
  intros He Hp.
  assert (H0 : gas_price_of receipt = QInt 0).
  { unfold gas_price_of. now rewrite He, Hp. }
  rewrite H0. cbn [int_times obind float_from_quantity]. rewrite Z.mul_0_r.
  repeat split; try reflexivity.
  - now apply build_summary_returns.
  - apply build_summary_price in H.
    destruct H as (p & Hq & Hg & _).
    rewrite H0 in Hq. injection Hq as <-. now injection Hg.
  - apply build_summary_price in H.
    destruct H as (p & Hq & _ & Hf).
    rewrite H0 in Hq. injection Hq as <-.
    rewrite Z.mul_0_r in Hf. now injection Hf.
Qed.

Lemma C10_no_gas_price_witness :
  exists s, sample_summary 1 (sample_tx (Some 21000) None)
              (sample_receipt 21000 None None) (sample_block None None) 98
            = Ret s
            /\ gasPriceGwei s = PyFloat.pos_zero
            /\ totalFeeEth s = PyFloat.pos_zero.
Proof.
  eexists. split; [reflexivity|].
  apply (proj2 (proj2 (proj2 (proj2
           (C10_no_gas_price (sample_receipt 21000 None None)
              eq_refl eq_refl)))
           (sample_w3 1 (sample_tx (Some 21000) None)
              (sample_receipt 21000 None None) (sample_block None None) 98)
           sample_hash (sample_tx (Some 21000) None)
           (sample_block None None) 98)).
  reflexivity.
Defined.

(** ** Network name and explorer link *)

Lemma EXPLORERS_nonempty (chain : Z) (base : string) :
  EXPLORERS !! chain = Some base -> str_truthy base = true.
Proof.
  unfold EXPLORERS.
  repeat (rewrite lookup_insert_Some;
          intros [[_ <-]|[_ H]]; [reflexivity|revert H]).
  now rewrite lookup_empty.
Qed.

Lemma tables_same_keys : dom NETWORKS = dom EXPLORERS.
Proof. unfold NETWORKS, EXPLORERS. now rewrite !dom_insert_L. Qed.

(** C6. The builder returns for in-range answers, and in every summary it
    returns a chain id outside the tables gets the network name
    ["Chain <id>"] and the explorer ["N/A"], and a chain id of the explorer
    table gets [<base>/tx/<hash>].  Chain 1 links to etherscan.io and chain
    999999 has no link. *)
Theorem C6_network_and_explorer :
  (forall w3 tx_hash tx receipt block latest,
      (answers_in_range w3 receipt block ->
       exists s, build_summary w3 tx_hash tx receipt block latest = Ret s)
      /\ forall s,
          build_summary w3 tx_hash tx receipt block latest = Ret s ->
          (NETWORKS !! chainId s = None ->
           network s = "Chain " +:+ str_of_int (chainId s))
          /\ (EXPLORERS !! chainId s = None -> explorer s = "N/A")
          /\ (forall base, EXPLORERS !! chainId s = Some base ->
                           explorer s = base +:+ "/tx/" +:+ txHash s))
  /\ explorer_url 1 sample_hash = "https://etherscan.io/tx/" +:+ sample_hash
  /\ explorer_url 999999 sample_hash = "N/A"
  /\ field network
       (sample_summary 999999 (sample_tx (Some 21000) None)
          (sample_receipt 21000 None None) (sample_block None None) 98)
     = Ret "Chain 999999".
Proof.
  split; [|repeat split; reflexivity].
  intros w3 tx_hash tx receipt block latest.
  split; [apply build_summary_returns|]. intros s Hs.
  apply build_summary_Ret in Hs. destruct Hs as (g & chain & H).
  assert (Hc : chainId s = chain) by tauto.
  assert (Hn : network s
               = default ("Chain " +:+ str_of_int chain) (NETWORKS !! chain))
    by tauto.
  assert (Hh : txHash s = tx_hash) by tauto.
  assert (He : explorer s = explorer_url chain tx_hash) by tauto.
  rewrite Hc, Hn, Hh, He. clear H Hc Hn Hh He. unfold explorer_url.
  repeat split.
  - now intros ->.
  - now intros ->.
  - intros base Hb. rewrite Hb. now rewrite (EXPLORERS_nonempty chain base).
Qed.

Lemma C6_network_and_explorer_witness :
  exists s, sample_summary 999999 (sample_tx (Some 21000) None)
              (sample_receipt 21000 None None) (sample_block None None) 98
            = Ret s
            /\ network s = "Chain " +:+ str_of_int (chainId s)
            /\ explorer s = "N/A".
Proof.
  eexists. split; [reflexivity|].
  pose proof (proj2 (proj1 C6_network_and_explorer
           (sample_w3 999999 (sample_tx (Some 21000) None)
              (sample_receipt 21000 None None) (sample_block None None) 98)
           sample_hash (sample_tx (Some 21000) None)
           (sample_receipt 21000 None None) (sample_block None None) 98)
           _ eq_refl) as (Hn & He & _).
  split; [apply Hn | apply He]; reflexivity.
Defined.

(** ** Sentinels for absent fields *)

(** C7. The builder returns for in-range answers, and in every summary it
    returns a transaction without recipient has [to_addr] equal to
    ["(contract creation)"], a block without base fee has [baseFeeGwei]
    equal to 0.0, and a block without miner has [miner] equal to ["N/A"]. *)
Theorem C7_absent_fields w3 tx_hash tx receipt block latest :
  (answers_in_range w3 receipt block ->
   exists s, build_summary w3 tx_hash tx receipt block latest = Ret s)
  /\ forall s,
      build_summary w3 tx_hash tx receipt block latest = Ret s ->
      (tx_to tx = None -> to_addr s = "(contract creation)")
      /\ (blk_baseFeePerGas block = None -> baseFeeGwei s = PyFloat.pos_zero)
      /\ (blk_miner block = None -> miner s = "N/A").
Proof.
  split; [apply build_summary_returns|].
  intros s Hs. apply build_summary_Ret in Hs.
  destruct Hs as (g & chain & _ & _ & _ & _ & _ & Hb & H).
  assert (Ht : to_addr s = str_or (tx_to tx) "(contract creation)") by tauto.
  assert (Hm : miner s = default "N/A" (blk_miner block)) by tauto.
  rewrite Ht, Hm. clear H Ht Hm. repeat split.
  - now intros ->.
  - intros Hn. rewrite Hn in Hb. now injection Hb.
  - now intros ->.
Qed.

Lemma C7_absent_fields_witness :
  exists s, sample_summary 1 (sample_tx (Some 21000) None)
              (sample_receipt 21000 None None) (sample_block None None) 98
            = Ret s
            /\ to_addr s = "(contract creation)"
            /\ baseFeeGwei s = PyFloat.pos_zero
            /\ miner s = "N/A".
Proof.
  eexists. split; [reflexivity|].
  pose proof (proj2 (C7_absent_fields
           (sample_w3 1 (sample_tx (Some 21000) None)
              (sample_receipt 21000 None None) (sample_block None None) 98)
           sample_hash (sample_tx (Some 21000) None)
           (sample_receipt 21000 None None) (sample_block None None) 98)
           _ eq_refl) as (Ht & Hb & Hm).
  split; [apply Ht | split; [apply Hb | apply Hm]]; reflexivity.
Defined.


(** ** The program as a whole *)

Section ProgramProperties.

Variable float_repr : spec_float -> string.
Variable format_fixed : nat -> spec_float -> string.
Variable strftime_gmtime : pyval -> outcome string.
Variable argparse_parse : list Argument -> list string -> outcome Namespace.
Variable env : Env.

Ltac io_unfold :=
  unfold mbind, mret, IO_bind, IO_ret, io_bind, io_ret, lift, print, sys_exit.

(** A dict that [fetch_summary] returns is the dict of a built summary,
    and nothing was printed on the way. *)
Lemma fetch_summary_Ret (w3 : Web3) (tx_hash : string) (d : dict)
    (out out' : list string) :
  fetch_summary w3 tx_hash out = (Ret d, out') ->
  out' = out
  /\ exists tx receipt block latest s,
       eth_get_transaction w3 tx_hash = Ret tx
       /\ build_summary w3 tx_hash tx receipt block latest = Ret s
       /\ d = asdict s.
Proof.
  unfold fetch_summary. io_unfold.
  destruct (eth_get_transaction w3 tx_hash) as [tx| |]; try discriminate.
  destruct (tx_blockNumber tx); [|discriminate].
  destruct (eth_get_transaction_receipt w3 tx_hash) as [receipt| |];
    try discriminate.
  destruct (eth_get_block w3 (rc_blockNumber receipt)) as [block| |];
    try discriminate.
  destruct (eth_block_number w3) as [latest| |]; try discriminate.
  destruct (build_summary w3 tx_hash tx receipt block latest) as [s| |] eqn:Hs;
    try discriminate.
  intros [= <- <-]. split; [reflexivity|].
  now exists tx, receipt, block, latest, s.
Qed.

(** The JSON text of a summary dict: the members in key order, one per
    line. *)
Lemma json_dumps_asdict (s : TxSummary) :
  json_dumps float_repr (asdict s) 2 true
  = pretty_object (json_members float_repr s).
Proof. reflexivity. Qed.

Lemma json_members_keys (s : TxSummary) :
  keys_increasing (map fst (json_members float_repr s))
  /\ map fst (json_members float_repr s) ≡ₚ TXSUMMARY_FIELD_NAMES.
Proof.
  split.
  - cbn. unfold keys_increasing.
    repeat (apply SSorted_cons; [|repeat constructor]). constructor.
  - cbn. unfold TXSUMMARY_FIELD_NAMES. solve_Permutation.
Qed.

(** X10. The three early ends of [main] after its arguments are parsed: a
    malformed hash ends it with status 1 before any connection, an
    unreachable node with status 1 before any request, and a pending
    transaction with status 0 after the latency line and the notice. *)
Lemma main_body_exit_codes (args : Namespace) (out : list string) :
  let w3 := provider env (ns_rpc args) in
  let run_body := main_body float_repr format_fixed strftime_gmtime env args out in
  (is_tx_hash (ns_tx_hash args) = false ->
   run_body = (Exit 1, (out ++ ["❌ Invalid tx hash."])%list))
  /\ (is_tx_hash (ns_tx_hash args) = true ->
      is_connected w3 = false ->
      run_body
      = (Exit 1, (out ++ ["❌ Could not connect to RPC: " +:+ ns_rpc args])%list))
  /\ (is_tx_hash (ns_tx_hash args) = true ->
      is_connected w3 = true ->
      forall tx,
        eth_get_transaction w3 (ns_tx_hash args) = Ret tx ->
        tx_blockNumber tx = None ->
        run_body
        = (Exit 0,
           (out ++ ["⚡ RPC latency: " +:+ format_fixed 3 (elapsed env) +:+ "s";
                    "⏳ Pending transaction."])%list)).
Proof.
  cbv zeta. unfold main_body, connect, fetch_summary. io_unfold.
  split; [|split].
  - now intros ->.
  - now intros -> ->.
  - intros -> -> tx Htx Hbn. cbn [negb fst snd]. rewrite Htx, Hbn.
    now rewrite <- app_assoc.
Qed.

(** C3, as the code has it.  Once the arguments are parsed with [json] set
    and the summary is fetched, [main] prints one JSON object: its keys are
    exactly the field names of [TxSummary] (with [from_addr] and [to_addr]),
    in increasing order, one member per line behind two spaces. *)
Theorem C3_json_output (args : Namespace) (d : dict) (out out' : list string) :
  ns_json args = true ->
  is_tx_hash (ns_tx_hash args) = true ->
  is_connected (provider env (ns_rpc args)) = true ->
  fetch_summary (provider env (ns_rpc args)) (ns_tx_hash args)
    (out ++ ["⚡ RPC latency: " +:+ format_fixed 3 (elapsed env) +:+ "s"])%list
  = (Ret d, out') ->
  exists s,
    d = asdict s
    /\ keys_exactly TXSUMMARY_FIELD_NAMES d
    /\ main_body float_repr format_fixed strftime_gmtime env args out
       = (Ret tt, (out' ++ [pretty_object (json_members float_repr s)])%list)
    /\ keys_increasing (map fst (json_members float_repr s))
    /\ map fst (json_members float_repr s) ≡ₚ map fst d.
Proof.
  intros Hjson Hhash Hconn Hfetch.
  destruct (fetch_summary_Ret _ _ _ _ _ Hfetch)
    as (_ & tx & receipt & block & latest & s & _ & _ & ->).
  exists s. split; [reflexivity|].
  assert (Hkeys : keys_exactly TXSUMMARY_FIELD_NAMES (asdict s))
    by (unfold keys_exactly; reflexivity).
  split; [exact Hkeys|]. split.
  - unfold main_body, connect. rewrite Hhash, Hconn, Hjson.
    unfold mbind, mret, IO_bind, IO_ret, io_bind, io_ret, print.
    cbn [negb fst snd]. rewrite Hfetch.
    now rewrite json_dumps_asdict.
  - destruct (json_members_keys s) as [Hs Hp]. split; [exact Hs|].
    rewrite Hp. symmetry. exact Hkeys.
Qed.

(** C9, on the code.  Declaring [--json] with the action ["true"] is
    refused: [parse_args] raises for every command line, with or without
    the flag, and the library's parser is never reached. *)
Theorem C9_parse_args_raises (argv : list string) :
  parse_args argparse_parse env argv
  = Raise (ValueError ("unknown action " +:+ dquote +:+ "true" +:+ dquote)).
Proof. reflexivity. Qed.

(** C8, on the code.  Whatever the command line and the node, [main] ends
    in the exception of [parse_args]: nothing is printed, and the exit
    status is 1, also for a well-formed hash of a mined or pending
    transaction on a reachable node. *)
Theorem C8_main_raises (argv : list string) :
  main float_repr format_fixed strftime_gmtime argparse_parse env argv []
  = (Raise (ValueError ("unknown action " +:+ dquote +:+ "true" +:+ dquote)), [])
  /\ run float_repr format_fixed strftime_gmtime argparse_parse env argv
     = (1, []).
Proof. split; reflexivity. Qed.

End ProgramProperties.

Lemma C3_json_output_witness :
  exists s,
    scenario_w3.(eth_chain_id) = Ret (chainId s)
    /\ main_body sample_float_repr sample_format_fixed sample_strftime
         (sample_env scenario_w3) (sample_args sample_hash true) []
       = (Ret tt, ["⚡ RPC latency: 0.250s";
                   pretty_object (json_members sample_float_repr s)]).
Proof.
  destruct (C3_json_output sample_float_repr sample_format_fixed
              sample_strftime (sample_env scenario_w3)
              (sample_args sample_hash true) _ [] _
              eq_refl eq_refl eq_refl eq_refl)
    as (s & Hd & _ & Hmain & _).
  exists s. split; [|exact Hmain].
  apply (f_equal (fun d => dict_get d "chainId")) in Hd.
  destruct s; cbn in Hd |- *. congruence.
Defined.

(** The claim as the specification words it fails on the scenario: the
    object written has no key [fromAddr]. *)
Lemma C3_spec_keys_counterexample :
  exists d,
    fetch_summary scenario_w3 sample_hash ["⚡ RPC latency: 0.250s"]
    = (Ret d, ["⚡ RPC latency: 0.250s"])
    /\ main_body sample_float_repr sample_format_fixed sample_strftime
         (sample_env scenario_w3) (sample_args sample_hash true) []
       = (Ret tt, ["⚡ RPC latency: 0.250s"; json_dumps sample_float_repr d 2 true])
    /\ ~ keys_exactly SPEC_FIELD_NAMES d.
Proof.
  eexists. split; [reflexivity|]. split; [reflexivity|].
  unfold keys_exactly. intros Hp.
  assert (Hin : "fromAddr" ∈ SPEC_FIELD_NAMES) by (unfold SPEC_FIELD_NAMES; set_solver).
  rewrite <- Hp in Hin. cbn in Hin.
  repeat (apply elem_of_cons in Hin as [Hin|Hin]; [discriminate|]).
  now apply elem_of_nil in Hin.
Qed.

(** The program run on the scenario: the status is 1 where the
    specification promises 0. *)
Lemma scenario_run :
  forall parse,
    run sample_float_repr sample_format_fixed sample_strftime parse
      (sample_env scenario_w3) [sample_hash] = (1, []).
Proof. reflexivity. Qed.

(** * Further properties *)

(** ** Hash validation, tables and floats *)

Lemma is_hex_digit_case (c : ascii) :
  is_hex_digit (ascii_lower c) = is_hex_digit c
  /\ is_hex_digit (ascii_upper c) = is_hex_digit c.
Proof. destruct c as [[] [] [] [] [] [] [] []]; split; reflexivity. Qed.

Lemma str_map_length (f : ascii -> ascii) (s : string) :
  String.length (str_map f s) = String.length s.
Proof.
  induction s as [|c s IH]; [reflexivity|].
  change (S (String.length (str_map f s)) = S (String.length s)).
  now rewrite IH.
Qed.

Lemma str_all_map (p : ascii -> bool) (f : ascii -> ascii) (s : string) :
  (forall c, p (f c) = p c) -> str_all p (str_map f s) = str_all p s.
Proof.
  intros Hf. unfold str_all. induction s as [|c s IH]; [reflexivity|].
  simpl. now rewrite Hf, IH.
Qed.

Lemma is_tx_hash_0x (rest : string) :
  is_tx_hash ("0x" +:+ rest)
  = (String.length rest =? 64)%nat && str_all is_hex_digit rest.
Proof.
  unfold is_tx_hash.
  rewrite (proj2 (prefix_0x _)) by now exists rest.
  change (str_from 2 ("0x" +:+ rest)) with rest.
  change (String.length ("0x" +:+ rest)) with (S (S (String.length rest))).
  cbn [andb]. f_equal.
  unfold str_all. induction rest as [|c rest IH]; [reflexivity|].
  simpl. now rewrite char_in_HEX_CHARS, IH.
Qed.

(** X1. After the prefix the validator ignores the case of the digits: a
    candidate and its lower-case and upper-case forms are accepted or
    rejected together.  The prefix itself is case-sensitive: [0X] is
    always rejected. *)
Theorem is_tx_hash_case (rest : string) :
  is_tx_hash ("0x" +:+ str_map ascii_lower rest) = is_tx_hash ("0x" +:+ rest)
  /\ is_tx_hash ("0x" +:+ str_map ascii_upper rest) = is_tx_hash ("0x" +:+ rest)
  /\ is_tx_hash ("0X" +:+ rest) = false.
Proof.
  rewrite !is_tx_hash_0x, !str_map_length.
  rewrite !str_all_map by (intros c; apply is_hex_digit_case).
  repeat split.
Qed.

Lemma str_length_app (s t : string) :
  String.length (s +:+ t) = (String.length s + String.length t)%nat.
Proof.
  induction s as [|c s IH]; [reflexivity|].
  change (S (String.length (s +:+ t)) = S (String.length s + String.length t)).
  now rewrite IH.
Qed.

(** X2. The validator does not trim: a valid hash followed or preceded by
    any non-empty string, such as a newline or a space, is rejected. *)
Theorem is_tx_hash_exact_length (v s : string) :
  is_tx_hash v = true -> s <> "" ->
  is_tx_hash (v +:+ s) = false /\ is_tx_hash (s +:+ v) = false.
Proof.
  intros Hv Hs. unfold is_tx_hash in *.
  apply andb_true_iff in Hv as [Hv _]. apply andb_true_iff in Hv as [_ Hl].
  apply Nat.eqb_eq in Hl.
  assert (Hlen : (0 < String.length s)%nat) by (destruct s; [congruence|simpl; lia]).
  split.
  - replace (String.length (v +:+ s) =? 66)%nat with false.
    + now rewrite andb_false_r.
    + symmetry. apply Nat.eqb_neq. rewrite str_length_app. lia.
  - replace (String.length (s +:+ v) =? 66)%nat with false.
    + now rewrite andb_false_r.
    + symmetry. apply Nat.eqb_neq. rewrite str_length_app. lia.
Qed.

Lemma EXPLORERS_first_char (chain : Z) (base : string) :
  EXPLORERS !! chain = Some base -> String.get 0 base = Some "h"%char.
Proof.
  unfold EXPLORERS.
  repeat (rewrite lookup_insert_Some;
          intros [[_ <-]|[_ H]]; [reflexivity|revert H]).
  now rewrite lookup_empty.
Qed.

Lemma NETWORKS_first_char (chain : Z) (name : string) :
  NETWORKS !! chain = Some name -> String.get 0 name <> Some "C"%char.
Proof.
  unfold NETWORKS.
  repeat (rewrite lookup_insert_Some;
          intros [[_ <-]|[_ H]]; [discriminate|revert H]).
  now rewrite lookup_empty.
Qed.

Lemma tables_same_None (chain : Z) :
  NETWORKS !! chain = None <-> EXPLORERS !! chain = None.
Proof. rewrite <- !not_elem_of_dom, tables_same_keys. reflexivity. Qed.

Lemma app_inv_head_str (p s t : string) : p +:+ s = p +:+ t -> s = t.
Proof.
  induction p as [|c p IH]; [trivial|].
  intros H. apply IH. now injection H.
Qed.

Lemma explorer_url_cases (chain_id : Z) (tx_hash : string) :
  (explorer_url chain_id tx_hash = "N/A" <-> EXPLORERS !! chain_id = None)
  /\ (EXPLORERS !! chain_id <> None ->
      forall other, explorer_url chain_id tx_hash = explorer_url chain_id other ->
                    tx_hash = other).
Proof.
  unfold explorer_url.
  destruct (EXPLORERS !! chain_id) as [base|] eqn:Hb.
  - rewrite (EXPLORERS_nonempty _ _ Hb).
    pose proof (EXPLORERS_first_char _ _ Hb) as Hc.
    split.
    + split; [|discriminate]. intros H.
      destruct base as [|c base]; [discriminate|].
      injection Hc as ->. discriminate.
    + intros _ other H. apply app_inv_head_str in H.
      now apply (app_inv_head_str "/tx/") in H.
  - split; [tauto|]. congruence.
Qed.

(** X3. The explorer link is "N/A" exactly for the chains outside the
    table, and on a known chain different hashes get different links. *)
Theorem explorer_url_unknown_iff (chain_id : Z) (tx_hash : string) :
  (explorer_url chain_id tx_hash = "N/A" <-> EXPLORERS !! chain_id = None)
  /\ (EXPLORERS !! chain_id <> None ->
      forall other, explorer_url chain_id tx_hash = explorer_url chain_id other ->
                    tx_hash = other).
Proof. apply explorer_url_cases. Qed.

(** X4. In a summary the two fallbacks go together: the explorer is "N/A"
    exactly when the network name is the synthesized label, and exactly
    when the chain id is outside the tables. *)
Theorem summary_fallbacks_agree w3 tx_hash tx receipt block latest s :
  build_summary w3 tx_hash tx receipt block latest = Ret s ->
  (explorer s = "N/A" <-> EXPLORERS !! chainId s = None)
  /\ (network s = "Chain " +:+ str_of_int (chainId s)
      <-> NETWORKS !! chainId s = None)
  /\ (explorer s = "N/A"
      <-> network s = "Chain " +:+ str_of_int (chainId s)).
Proof.
  intros Hs. apply build_summary_Ret in Hs. destruct Hs as (g & chain & H).
  assert (Hc : chainId s = chain) by tauto.
  assert (Hn : network s
               = default ("Chain " +:+ str_of_int chain) (NETWORKS !! chain))
    by tauto.
  assert (He : explorer s = explorer_url chain tx_hash) by tauto.
  rewrite Hc, Hn, He. clear H Hc Hn He.
  assert (H1 : explorer_url chain tx_hash = "N/A" <-> EXPLORERS !! chain = None)
    by apply explorer_url_cases.
  assert (H2 : default ("Chain " +:+ str_of_int chain) (NETWORKS !! chain)
               = "Chain " +:+ str_of_int chain <-> NETWORKS !! chain = None).
  { destruct (NETWORKS !! chain) as [name|] eqn:Hname; cbn.
    - split; [|discriminate]. intros ->.
      now apply NETWORKS_first_char in Hname.
    - tauto. }
  split; [exact H1|]. split; [exact H2|].
  rewrite H1, H2. symmetry. apply tables_same_None.
Qed.

Lemma SFdiv_core_binary_same (p : positive) :
  SFdiv_core_binary 53 1024 (Z.pos p) 0 (Z.pos p) 0 = (2 ^ 53, -53, loc_Exact).
Proof.
  unfold SFdiv_core_binary.
  replace (Zdigits2 (Z.pos p) + 0 - (Zdigits2 (Z.pos p) + 0)) with 0 by lia.
  change (Z.min (fexp 53 1024 0) (0 - 0)) with (-53).
  change (0 - 0 - -53) with 53. cbv beta iota.
  rewrite Z.shiftl_mul_pow2 by lia.
  pose proof (Z_div_mod (Z.pos p * 2 ^ 53) (Z.pos p) ltac:(lia)) as H.
  destruct (Z.div_eucl (Z.pos p * 2 ^ 53) (Z.pos p)) as [q r].
  destruct H as [Heq Hr].
  assert (q = 2 ^ 53) by nia. subst q.
  assert (r = 0) by lia. subst r.
  unfold new_location, new_location_even, new_location_odd.
  now destruct (Z.even (Z.pos p)).
Qed.

(** A positive int divided by itself is the float 1.0, whatever its size. *)
Lemma nearest_same (p : positive) :
  PyFloat.nearest (Z.pos p) (Z.pos p) = PyFloat.nearest 1 1.
Proof.
  unfold PyFloat.nearest, PyFloat.exact, SFdiv, PyFloat.prec, PyFloat.emax.
  now rewrite !SFdiv_core_binary_same.
Qed.


Lemma nearest_zero (p : positive) :
  PyFloat.nearest 0 (Z.pos p) = PyFloat.pos_zero.
Proof. reflexivity. Qed.

Lemma gas_eff_of_full (g : Z) :
  0 < g -> gas_eff_of g g = Ret (PyFloat.nearest 100 1).
Proof.
  intros Hg. unfold gas_eff_of, PyFloat.int_truediv.
  destruct (Z.eqb_spec g 0) as [|_]; [lia|]. cbn [negb].
  destruct g as [|p|p]; try lia.
  rewrite nearest_same. reflexivity.
Qed.

Lemma gas_eff_of_unused (g : Z) :
  0 < g -> gas_eff_of 0 g = Ret PyFloat.pos_zero.
Proof.
  intros Hg. unfold gas_eff_of, PyFloat.int_truediv.
  destruct (Z.eqb_spec g 0) as [|_]; [lia|]. cbn [negb].
  destruct g as [|p|p]; try lia. reflexivity.
Qed.

(** X5. A transaction that uses its whole gas limit has an efficiency of
    exactly 100.0, whatever the limit, and one that uses no gas has 0.0. *)
Theorem gas_efficiency_extremes w3 tx_hash tx receipt block latest s :
  build_summary w3 tx_hash tx receipt block latest = Ret s ->
  0 < gasLimit s ->
  (gasUsed s = gasLimit s -> gasEfficiency s = PyFloat.nearest 100 1)
  /\ (gasUsed s = 0 -> gasEfficiency s = PyFloat.pos_zero).
Proof.
  intros Hs. apply build_summary_Ret in Hs.
  destruct Hs as (g & chain & Hg & _ & Hr & _ & _ & _ & H).
  assert (Hused : gasUsed s = rc_gasUsed receipt) by tauto.
  assert (Hlimit : gasLimit s = int_or (tx_gas tx) 0) by tauto.
  rewrite Hused, Hlimit. clear H Hused Hlimit. intros Hpos.
  split; intros Hu; rewrite Hu in Hg.
  - rewrite gas_eff_of_full in Hg by exact Hpos. injection Hg as <-.
    change (PyFloat.round (PyFloat.nearest 100 1) 2)
      with (Ret (PyFloat.nearest 100 1)) in Hr.
    now injection Hr.
  - rewrite gas_eff_of_unused in Hg by exact Hpos. injection Hg as <-.
    change (PyFloat.round PyFloat.pos_zero 2) with (Ret PyFloat.pos_zero) in Hr.
    now injection Hr.
Qed.

Lemma Zdigits2_ge (m d : Z) : 0 < m -> 2 ^ (d - 1) <= m -> d <= Zdigits2 m.
Proof.
  intros Hm Hd. destruct m as [|p|p]; try lia. simpl.
  rewrite digits2_pos_size.
  pose proof (Pos.size_gt p) as Hs.
  assert (H : Z.pos p < 2 ^ Z.pos (Pos.size p)).
  { rewrite <- (Pos2Z.inj_pow 2). lia. }
  destruct (Z_lt_le_dec (Z.pos (Pos.size p)) d) as [Hlt|]; [|lia].
  exfalso.
  assert (2 ^ Z.pos (Pos.size p) <= 2 ^ (d - 1)) by (apply Z.pow_le_mono_r; lia).
  lia.
Qed.

Lemma Zdigits2_mono (a b : Z) : 0 <= a <= b -> Zdigits2 a <= Zdigits2 b.
Proof.
  intros [Ha Hab].
  assert (Hb : 0 <= Zdigits2 b) by (destruct b; simpl; lia).
  apply Zdigits2_le; [lia|lia|].
  destruct b as [|p|p]; try lia. simpl. rewrite digits2_pos_size.
  pose proof (Pos.size_gt p) as Hs.
  assert (H : Z.pos p < 2 ^ Z.pos (Pos.size p)).
  { rewrite <- (Pos2Z.inj_pow 2). lia. }
  lia.
Qed.

(** What [shr_fexp] computes on a non-negative mantissa. *)
Lemma shr_fexp_spec (m e : Z) (l : location) :
  0 <= m ->
  snd (shr_fexp 53 1024 m e l) = Z.max e (fexp 53 1024 (Zdigits2 m + e))
  /\ shr_m (fst (shr_fexp 53 1024 m e l))
     = m / 2 ^ (snd (shr_fexp 53 1024 m e l) - e).
Proof.
  intros Hm. unfold shr_fexp, shr.
  set (n := fexp 53 1024 (Zdigits2 m + e) - e).
  destruct n as [|p|p] eqn:En; cbn [fst snd]; rewrite ?shr_record_of_loc_m.
  - split; [lia|]. rewrite Z.sub_diag. now rewrite Z.div_1_r.
  - rewrite iter_shr_1_m by (rewrite shr_record_of_loc_m; lia).
    rewrite shr_record_of_loc_m. split; [lia|]. f_equal. f_equal. lia.
  - split; [lia|]. rewrite Z.sub_diag. now rewrite Z.div_1_r.
Qed.

Lemma binary_round_aux_bounded (s : bool) (M E : Z) (l : location) (N F : Z) :
  0 <= M -> 0 < N < 2 ^ 53 -> -1074 <= F <= 971 -> E <= F ->
  M < N * 2 ^ (F - E) ->
  bounded_by s N F (binary_round_aux 53 1024 s M E l).
Proof.
  intros HM HN HF HE Hlt. unfold binary_round_aux.
  assert (Hpow : forall j, 0 <= j -> 0 < 2 ^ j) by (intros; apply Z.pow_pos_nonneg; lia).
  (* first shift *)
  pose proof (shr_fexp_spec M E l HM) as [He1 Hm1].
  destruct (shr_fexp 53 1024 M E l) as [r1 e1]. cbn [fst snd] in He1, Hm1.
  assert (Hd : Zdigits2 M <= 53 + (F - E)).
  { apply Zdigits2_le; [lia|lia|].
    rewrite Z.pow_add_r by lia. pose proof (Hpow (F - E) ltac:(lia)). nia. }
  assert (He1F : E <= e1 <= F) by (unfold fexp, emin in He1; lia).
  assert (Hr1 : 0 <= shr_m r1 < N * 2 ^ (F - e1)).
  { rewrite Hm1. split; [apply Z.div_pos; [lia|apply Hpow; lia]|].
    apply Z.div_lt_upper_bound; [apply Hpow; lia|].
    replace (2 ^ (e1 - E) * (N * 2 ^ (F - e1))) with (N * 2 ^ (F - E)); [exact Hlt|].
    replace (F - E) with ((e1 - E) + (F - e1)) by lia.
    rewrite Z.pow_add_r by lia. ring. }
  pose proof (round_nearest_even_le (shr_m r1) (loc_of_shr_record r1)) as Hr.
  set (m1 := round_nearest_even (shr_m r1) (loc_of_shr_record r1)) in *.
  (* second shift *)
  pose proof (shr_fexp_spec m1 e1 loc_Exact ltac:(lia)) as [He2 Hm2].
  destruct (shr_fexp 53 1024 m1 e1 loc_Exact) as [r2 e2]. cbn [fst snd] in He2, Hm2.
  assert (Hd1 : Zdigits2 m1 <= 53 + (F - e1)).
  { apply Zdigits2_le; [lia|lia|].
    rewrite Z.pow_add_r by lia. pose proof (Hpow (F - e1) ltac:(lia)). nia. }
  assert (He2F : e1 <= e2 <= F) by (unfold fexp, emin in He2; lia).
  assert (Hr2 : 0 <= shr_m r2 <= N * 2 ^ (F - e2)).
  { rewrite Hm2. split; [apply Z.div_pos; [lia|apply Hpow; lia]|].
    apply Z.div_le_upper_bound; [apply Hpow; lia|].
    replace (2 ^ (e2 - e1) * (N * 2 ^ (F - e2))) with (N * 2 ^ (F - e1)); [lia|].
    replace (F - e1) with ((e2 - e1) + (F - e2)) by lia.
    rewrite Z.pow_add_r by lia. ring. }
  destruct (shr_m r2) as [|p|p]; [reflexivity| |lia].
  replace (e2 <=? 1024 - 53) with true by (symmetry; apply Z.leb_le; lia).
  repeat split; lia.
Qed.

Lemma bounded_by_at_most (N' N F : Z) (x : spec_float) :
  F <= 0 -> N = N' * 2 ^ (- F) -> bounded_by false N F x -> at_most N' x.
Proof.
  intros HF HN Hx. destruct x as [s|s| |s m e]; simpl in *; try contradiction.
  - now subst s.
  - destruct Hx as (-> & He & Hm).
    assert (Heq : N * 2 ^ (F - e) = N' * 2 ^ (- e)).
    { subst N. rewrite <- Z.mul_assoc, <- Z.pow_add_r by lia. do 2 f_equal. lia. }
    rewrite Heq in Hm.
    destruct (Z.leb_spec 0 e) as [H0|H0]; [|exact Hm].
    assert (e = 0) by lia. subst e. simpl in Hm. lia.
Qed.

Lemma SFdiv_core_binary_lt (pa pb : positive) (N F : Z) :
  0 < N -> F <= 0 ->
  fexp 53 1024 (Zdigits2 (Z.pos pa) - Zdigits2 (Z.pos pb)) <= F ->
  Z.pos pa * 2 ^ (- F) < N * Z.pos pb ->
  let r := SFdiv_core_binary 53 1024 (Z.pos pa) 0 (Z.pos pb) 0 in
  0 <= fst (fst r) /\ snd (fst r) <= F
  /\ fst (fst r) < N * 2 ^ (F - snd (fst r)).
Proof.
  intros HN HF Hfexp Hlt. unfold SFdiv_core_binary.
  rewrite !Z.add_0_r.
  set (e' := Z.min _ _).
  assert (He' : e' <= F /\ e' <= 0) by (unfold e'; lia).
  set (s := 0 - 0 - e').
  set (m' := match s with Z.pos _ => Z.shiftl (Z.pos pa) s | 0 => Z.pos pa | Z.neg _ => 0 end).
  assert (Hm' : m' = Z.pos pa * 2 ^ (- e')).
  { unfold m'. destruct s as [|p|p] eqn:Es.
    - replace (- e') with 0 by lia. simpl. lia.
    - rewrite Z.shiftl_mul_pow2 by lia. do 2 f_equal. lia.
    - lia. }
  pose proof (Z_div_mod m' (Z.pos pb) ltac:(lia)) as Hdiv.
  destruct (Z.div_eucl m' (Z.pos pb)) as [q r]. cbn [fst snd].
  destruct Hdiv as [Heq Hr].
  assert (Hp1 : 0 < 2 ^ (- e')) by (apply Z.pow_pos_nonneg; lia).
  assert (Hp2 : 0 < 2 ^ (F - e')) by (apply Z.pow_pos_nonneg; lia).
  assert (Hsplit : 2 ^ (- e') = 2 ^ (- F) * 2 ^ (F - e'))
    by (rewrite <- Z.pow_add_r by lia; f_equal; lia).
  assert (0 <= q) by nia.
  split; [assumption|]. split; [lia|].
  assert (Hnum : m' < N * 2 ^ (F - e') * Z.pos pb).
  { rewrite Hm', Hsplit. nia. }
  nia.
Qed.

Lemma nearest_le_one (a b : Z) :
  0 <= a <= b -> 0 < b -> bounded_by false (2 ^ 52) (-52) (PyFloat.nearest a b).
Proof.
  intros [Ha Hab] Hb.
  destruct (Z.eq_dec a b) as [->|Hne].
  - destruct b as [|p|p]; try lia. rewrite nearest_same.
    change (PyFloat.nearest 1 1) with (S754_finite false 4503599627370496 (-52)).
    unfold bounded_by. split; [reflexivity|]. split; [lia|].
    vm_compute. discriminate.
  - unfold PyFloat.nearest, PyFloat.exact.
    destruct a as [|pa|pa]; destruct b as [|pb|pb]; try lia; [reflexivity|].
    cbn [SFdiv xorb]. unfold PyFloat.prec, PyFloat.emax.
    assert (Hd : Zdigits2 (Z.pos pa) <= Zdigits2 (Z.pos pb))
      by (apply Zdigits2_mono; lia).
    pose proof (SFdiv_core_binary_lt pa pb (2 ^ 52) (-52) ltac:(lia) ltac:(lia)) as Hc.
    destruct (SFdiv_core_binary 53 1024 (Z.pos pa) 0 (Z.pos pb) 0) as [[mz ez] lz].
    cbn [fst snd] in Hc.
    destruct Hc as (H0 & He & Hlt).
    + unfold fexp, emin. lia.
    + change (2 ^ (- -52)) with (2 ^ 52). nia.
    + apply binary_round_aux_bounded; try lia. 
Qed.

Lemma shr_1_double (k : Z) :
  0 <= k ->
  shr_1 {| shr_m := 2 * k; shr_r := false; shr_s := false |}
  = {| shr_m := k; shr_r := false; shr_s := false |}.
Proof. intros Hk. destruct k as [|p|p]; [reflexivity|reflexivity|lia]. Qed.

(** Shifting out zeros only is exact. *)
Lemma iter_shr_1_exact (p : positive) (k : Z) :
  0 <= k ->
  SpecFloat.iter_pos shr_1 p
    {| shr_m := k * 2 ^ Z.pos p; shr_r := false; shr_s := false |}
  = {| shr_m := k; shr_r := false; shr_s := false |}.
Proof.
  revert k. induction p as [p IH|p IH|]; intros k Hk;
    [change (SpecFloat.iter_pos shr_1 p~1 ?x)
       with (SpecFloat.iter_pos shr_1 p (SpecFloat.iter_pos shr_1 p (shr_1 x)))
    |change (SpecFloat.iter_pos shr_1 p~0 ?x)
       with (SpecFloat.iter_pos shr_1 p (SpecFloat.iter_pos shr_1 p x))
    |change (SpecFloat.iter_pos shr_1 1 ?x) with (shr_1 x)].
  - assert (Hp : 0 < 2 ^ Z.pos p) by (apply Z.pow_pos_nonneg; lia).
    assert (Hx : 2 ^ Z.pos p~1 = 2 * (2 ^ Z.pos p * 2 ^ Z.pos p))
      by (rewrite <- Z.pow_add_r, <- Z.pow_succ_r by lia; f_equal; lia).
    replace (k * 2 ^ Z.pos p~1) with (2 * ((k * 2 ^ Z.pos p) * 2 ^ Z.pos p))
      by (rewrite Hx; ring).
    rewrite shr_1_double by nia. rewrite IH by nia. now rewrite IH.
  - assert (Hp : 0 < 2 ^ Z.pos p) by (apply Z.pow_pos_nonneg; lia).
    assert (Hx : 2 ^ Z.pos p~0 = 2 ^ Z.pos p * 2 ^ Z.pos p)
      by (rewrite <- Z.pow_add_r by lia; f_equal; lia).
    replace (k * 2 ^ Z.pos p~0) with ((k * 2 ^ Z.pos p) * 2 ^ Z.pos p)
      by (rewrite Hx; ring).
    rewrite IH by nia. now rewrite IH.
  - change (2 ^ 1) with 2. rewrite Z.mul_comm. now apply shr_1_double.
Qed.

(** The float 1.0 times 100.0, with 1.0 written on any exponent. *)
Lemma mul_one_hundred (j : Z) (m : positive) :
  0 <= j -> Z.pos m = 2 ^ j ->
  PyFloat.mul (S754_finite false m (- j)) hundred = hundred.
Proof.
  intros Hj Hm. unfold PyFloat.mul, hundred, SFmul, PyFloat.prec, PyFloat.emax.
  cbn [xorb]. unfold binary_round_aux.
  rewrite Pos2Z.inj_mul, Hm.
  assert (Hpj : 0 < 2 ^ j) by (apply Z.pow_pos_nonneg; lia).
  assert (Hdig : Zdigits2 (2 ^ j * 7036874417766400) = 53 + j).
  { apply Z.le_antisymm.
    - apply Zdigits2_le; [nia|lia|].
      rewrite Z.pow_add_r by lia. assert (7036874417766400 < 2 ^ 53) by reflexivity. nia.
    - apply Zdigits2_ge; [nia|].
      replace (53 + j - 1) with (52 + j) by lia.
      rewrite Z.pow_add_r by lia. assert (2 ^ 52 <= 7036874417766400) by (vm_compute; discriminate). nia. }
  assert (Hshift : shr_fexp 53 1024 (2 ^ j * 7036874417766400) (- j + -46)
                     loc_Exact
                   = ({| shr_m := 7036874417766400; shr_r := false;
                         shr_s := false |}, -46)).
  { unfold shr_fexp. rewrite Hdig.
    replace (fexp 53 1024 (53 + j + (- j + -46)) - (- j + -46)) with j
      by (unfold fexp, emin; lia).
    destruct j as [|p|p]; [reflexivity| |lia].
    unfold shr, shr_record_of_loc.
    rewrite (Z.mul_comm (2 ^ Z.pos p)), iter_shr_1_exact by lia.
    f_equal. lia. }
  rewrite Hshift. reflexivity.
Qed.

Lemma mul_hundred_bounded (q : spec_float) :
  bounded_by false (2 ^ 52) (-52) q ->
  bounded_by false 7036874417766400 (-46) (PyFloat.mul q hundred).
Proof.
  destruct q as [s|s| |s m e]; simpl bounded_by at 1; try contradiction.
  - intros ->. reflexivity.
  - intros (-> & He & Hm).
    assert (Hpow : 2 ^ 52 * 2 ^ (-52 - e) = 2 ^ (- e)).
    { rewrite <- Z.pow_add_r by lia. f_equal. lia. }
    rewrite Hpow in Hm.
    destruct (Z.eq_dec (Z.pos m) (2 ^ (- e))) as [Heq|Hne].
    + replace e with (- (- e)) by lia.
      rewrite (mul_one_hundred (- e) m) by (lia || exact Heq).
      unfold hundred, bounded_by. split; [reflexivity|]. split; [lia|].
      vm_compute. discriminate.
    + unfold PyFloat.mul, hundred, SFmul, PyFloat.prec, PyFloat.emax.
      cbn [xorb].
      apply binary_round_aux_bounded;
        [lia | split; [lia|reflexivity] | lia | lia |].
      rewrite Pos2Z.inj_mul.
      replace (-46 - (e + -46)) with (- e) by lia.
      assert (0 < 2 ^ (- e)) by (apply Z.pow_pos_nonneg; lia). nia.
Qed.

Lemma div_half_even_le_bound (a b K : Z) :
  0 <= a -> 0 < b -> a <= K * b -> PyFloat.div_half_even a b <= K.
Proof.
  intros Ha Hb Hab. unfold PyFloat.div_half_even.
  pose proof (Z_div_mod_eq_full a b) as Heq.
  pose proof (Z.mod_pos_bound a b Hb) as Hr.
  assert (Hq : a / b < K \/ (a / b = K /\ a mod b = 0)) by nia.
  destruct (Z.compare_spec (2 * (a mod b)) b) as [H|H|H];
    try destruct (Z.even (a / b)); nia.
Qed.

Lemma nearest_hundredths_bounded (n : Z) :
  0 < n <= 10000 ->
  bounded_by false 7036874417766400 (-46) (PyFloat.nearest n (10 ^ 2)).
Proof.
  intros [Hn0 Hn]. change (10 ^ 2) with 100.
  destruct (Z.eq_dec n 10000) as [->|Hne].
  - change (PyFloat.nearest 10000 100) with hundred.
    unfold hundred, bounded_by. split; [reflexivity|]. split; [lia|].
    vm_compute. discriminate.
  - unfold PyFloat.nearest, PyFloat.exact.
    destruct n as [|pn|pn]; try lia.
    cbn [SFdiv xorb]. unfold PyFloat.prec, PyFloat.emax.
    assert (Hd : Zdigits2 (Z.pos pn) <= 14)
      by (apply Zdigits2_le; [lia|lia|]; change (2 ^ 14) with 16384; lia).
    pose proof (SFdiv_core_binary_lt pn 100 7036874417766400 (-46)
                  ltac:(lia) ltac:(lia)) as Hc.
    destruct (SFdiv_core_binary 53 1024 (Z.pos pn) 0 100 0) as [[mz ez] lz].
    cbn [fst snd] in Hc.
    destruct Hc as (H0 & He & Hlt).
    + change (Zdigits2 100) with 7. unfold fexp, emin. lia.
    + change (2 ^ (- -46)) with 70368744177664. lia.
    + apply binary_round_aux_bounded;
        [lia | split; [lia|reflexivity] | lia | lia | exact Hlt].
Qed.

Lemma round_hundred_bounded (p : spec_float) :
  bounded_by false 7036874417766400 (-46) p ->
  exists r, PyFloat.round p 2 = Ret r
            /\ bounded_by false 7036874417766400 (-46) r.
Proof.
  destruct p as [s|s| |s m e]; simpl bounded_by at 1; try contradiction.
  - intros ->. exists (S754_zero false). split; reflexivity.
  - intros (-> & He & Hm). unfold PyFloat.round.
    set (n := PyFloat.scaled_half_even m e 2).
    assert (Hn : 0 <= n <= 10000).
    { unfold n, PyFloat.scaled_half_even.
      destruct (Z.leb_spec 0 e) as [|_]; [lia|].
      assert (Hp : 0 < 2 ^ (- e)) by (apply Z.pow_pos_nonneg; lia).
      assert (Hsplit : 2 ^ (- e) = 70368744177664 * 2 ^ (-46 - e)).
      { change 70368744177664 with (2 ^ 46).
        rewrite <- Z.pow_add_r by lia. f_equal. lia. }
      change (10 ^ 2) with 100.
      split.
      - apply div_half_even_le; lia.
      - apply div_half_even_le_bound; [lia|lia|]. rewrite Hsplit. lia. }
    destruct (Z.eqb_spec n 0) as [H0|H0].
    + exists (S754_zero false). split; reflexivity.
    + pose proof (nearest_hundredths_bounded n ltac:(lia)) as Hr.
      exists (PyFloat.nearest n (10 ^ 2)). split; [|exact Hr].
      destruct (PyFloat.nearest n (10 ^ 2)); simpl in Hr; try contradiction;
        reflexivity.
Qed.

(** X6. The efficiency of a transaction that stays within its gas limit
    lies between 0.0 and 100.0: no rounding step takes it above 100. *)
Theorem gas_efficiency_at_most_100 w3 tx_hash tx receipt block latest s :
  build_summary w3 tx_hash tx receipt block latest = Ret s ->
  0 <= gasUsed s <= gasLimit s ->
  at_most 100 (gasEfficiency s).
Proof.
  intros Hs. apply build_summary_Ret in Hs.
  destruct Hs as (g & chain & Hg & _ & Hr & _ & _ & _ & H).
  assert (Hused : gasUsed s = rc_gasUsed receipt) by tauto.
  assert (Hlimit : gasLimit s = int_or (tx_gas tx) 0) by tauto.
  rewrite Hused, Hlimit. clear H Hused Hlimit. intros [Hu Hul].
  assert (Hb : bounded_by false 7036874417766400 (-46) g).
  { unfold gas_eff_of in Hg.
    destruct (Z.eqb_spec (int_or (tx_gas tx) 0) 0) as [H0|H0]; cbn [negb] in Hg.
    - injection Hg as <-. reflexivity.
    - pose proof (nearest_le_one (rc_gasUsed receipt) (int_or (tx_gas tx) 0)
                    ltac:(lia) ltac:(lia)) as Hq.
      unfold PyFloat.int_truediv in Hg.
      destruct (Z.eqb_spec (int_or (tx_gas tx) 0) 0) as [|_]; [contradiction|].
      destruct (PyFloat.is_inf _); [discriminate|].
      cbn [obind] in Hg. unfold PyFloat.mul_int in Hg.
      rewrite of_int_100 in Hg. cbn [obind] in Hg. injection Hg as <-.
      now apply mul_hundred_bounded. }
  destruct (round_hundred_bounded g Hb) as (r & Hr' & Hbr).
  rewrite Hr' in Hr. injection Hr as <-.
  apply (bounded_by_at_most 100 7036874417766400 (-46)); [lia|reflexivity|exact Hbr].
Qed.

Lemma binary_round_aux_sign (s : bool) (M E : Z) (l : location) :
  0 <= M ->
  match binary_round_aux 53 1024 s M E l with
  | S754_nan => False
  | S754_zero s' | S754_infinity s' | S754_finite s' _ _ => s' = s
  end.
Proof.
  intros HM. unfold binary_round_aux.
  pose proof (shr_fexp_spec M E l HM) as [He1 Hm1].
  destruct (shr_fexp 53 1024 M E l) as [r1 e1]. cbn [fst snd] in He1, Hm1.
  assert (Hr1 : 0 <= shr_m r1).
  { rewrite Hm1. apply Z.div_pos; [lia|apply Z.pow_pos_nonneg; lia]. }
  pose proof (round_nearest_even_le (shr_m r1) (loc_of_shr_record r1)) as Hr.
  set (m1 := round_nearest_even (shr_m r1) (loc_of_shr_record r1)) in *.
  pose proof (shr_fexp_spec m1 e1 loc_Exact ltac:(lia)) as [He2 Hm2].
  destruct (shr_fexp 53 1024 m1 e1 loc_Exact) as [r2 e2]. cbn [fst snd] in He2, Hm2.
  assert (Hr2 : 0 <= shr_m r2).
  { rewrite Hm2. apply Z.div_pos; [lia|apply Z.pow_pos_nonneg; lia]. }
  destruct (shr_m r2) as [|p|p]; [reflexivity| |lia].
  destruct (e2 <=? 1024 - 53); reflexivity.
Qed.

Lemma regular_of_sign (k : Z) (x : spec_float) :
  below k x ->
  match x with
  | S754_nan => False
  | S754_zero s' | S754_infinity s' | S754_finite s' _ _ => s' = false
  end ->
  regular x.
Proof. destruct x as [[]|[]| |[] m e]; simpl; intros; congruence || tauto. Qed.

Lemma nearest_regular (a b k : Z) :
  0 <= k <= 1023 -> 0 <= a < 2 ^ k -> 0 < b -> regular (PyFloat.nearest a b).
Proof.
  intros Hk Ha Hb.
  pose proof (nearest_below a b k ltac:(lia) Hk ltac:(lia)) as Hbelow.
  apply (regular_of_sign _ _ Hbelow).
  unfold PyFloat.nearest, PyFloat.exact.
  destruct a as [|pa|pa]; destruct b as [|pb|pb]; try lia; [reflexivity|].
  cbn [SFdiv xorb]. unfold PyFloat.prec, PyFloat.emax.
  pose proof (SFdiv_core_binary_below pa pb k ltac:(lia) ltac:(lia)) as Hc.
  destruct (SFdiv_core_binary 53 1024 (Z.pos pa) 0 (Z.pos pb) 0) as [[mz ez] lz].
  cbn [fst snd] in Hc. apply binary_round_aux_sign. lia.
Qed.

Lemma mul_hundred_regular (x : spec_float) (k : Z) :
  0 <= k <= 1016 -> below k x -> regular x ->
  regular (PyFloat.mul x hundred).
Proof.
  intros Hk Hb Hx.
  apply (regular_of_sign _ _ (mul_hundred_below x k Hk Hb)).
  destruct x as [[]|[]| |[] m e]; simpl in Hx; try contradiction;
    [reflexivity|].
  unfold PyFloat.mul, hundred, SFmul, PyFloat.prec, PyFloat.emax. cbn [xorb].
  apply binary_round_aux_sign. lia.
Qed.

Lemma round_regular (x : spec_float) (k : Z) :
  0 <= k <= 1015 -> below k x -> regular x ->
  exists r, PyFloat.round x 2 = Ret r /\ regular r.
Proof.
  intros Hk Hb Hx.
  destruct (round_returns x k Hk Hb) as (r & Hr & Hbr).
  exists r. split; [exact Hr|].
  destruct x as [[]|[]| |[] m e]; simpl in Hx; try contradiction.
  - injection Hr as <-. exact I.
  - destruct Hb as [He Hm]. unfold PyFloat.round in Hr.
    pose proof (scaled_half_even_lt m e k ltac:(lia) Hm) as Hn.
    set (n := PyFloat.scaled_half_even m e 2) in *.
    destruct (Z.eqb_spec n 0) as [H0|H0].
    + cbn in Hr. injection Hr as <-. exact I.
    + pose proof (nearest_regular n (10 ^ 2) (k + 7) ltac:(lia) ltac:(lia)
                    ltac:(reflexivity)) as Hreg.
      destruct (PyFloat.is_inf (PyFloat.nearest n (10 ^ 2))); [discriminate|].
      now injection Hr as <-.
Qed.

(** X7. For in-range answers the float fields of a summary are plus zero or
    positive and finite, so that the JSON encoder writes each of them with
    [repr], never as [NaN], [Infinity] or a negative number. *)
Theorem summary_floats_regular w3 tx_hash tx receipt block latest s
    (float_repr : spec_float -> string) :
  build_summary w3 tx_hash tx receipt block latest = Ret s ->
  answers_in_range w3 receipt block ->
  0 <= gasLimit s ->
  Forall (fun x => regular x /\ floatstr float_repr x = float_repr x)
    [gasEfficiency s; gasPriceGwei s; totalFeeEth s; baseFeeGwei s].
Proof.
  intros Hs (_ & Hu & (p & Hprice & Hp & Hf) & Hb) Hl.
  apply build_summary_Ret in Hs.
  destruct Hs as (g & chain & Hg & _ & Hr & Hpg & Hfe & Hbf & H).
  rewrite Hprice in Hpg, Hfe.
  cbn [int_times obind float_from_quantity] in Hpg, Hfe.
  assert (Hlimit : gasLimit s = int_or (tx_gas tx) 0) by tauto.
  rewrite Hlimit in Hl. clear H Hlimit.
  assert (Hstr : forall x, regular x ->
                   regular x /\ floatstr float_repr x = float_repr x).
  { intros x Hx. split; [exact Hx|].
    destruct x as [[]|[]| |[] m e]; simpl in Hx; try contradiction; reflexivity. }
  assert (Hmax : MAX_WEI < 2 ^ 256) by reflexivity.
  repeat (match goal with
          | |- Forall _ (_ :: _) => constructor
          | |- Forall _ [] => constructor
          end); apply Hstr.
  - destruct (gas_eff_of_returns (rc_gasUsed receipt) (int_or (tx_gas tx) 0) Hu)
      as (g' & Hg' & Hbg).
    rewrite Hg in Hg'. injection Hg' as <-.
    assert (Hreg : regular g).
    { unfold gas_eff_of in Hg.
      destruct (Z.eqb_spec (int_or (tx_gas tx) 0) 0) as [H0|H0]; cbn [negb] in Hg.
      - injection Hg as <-. exact I.
      - unfold PyFloat.int_truediv in Hg.
        destruct (Z.eqb_spec (int_or (tx_gas tx) 0) 0) as [|_]; [contradiction|].
        pose proof (nearest_below (rc_gasUsed receipt) (int_or (tx_gas tx) 0) 256
                      H0 ltac:(lia) ltac:(lia)) as Hq.
        destruct (PyFloat.is_inf _); [discriminate|].
        cbn [obind] in Hg. unfold PyFloat.mul_int in Hg.
        rewrite of_int_100 in Hg. cbn [obind] in Hg. injection Hg as <-.
        apply (mul_hundred_regular _ 257); [lia|exact Hq|].
        apply (nearest_regular _ _ 256); lia. }
    destruct (round_regular g 265 ltac:(lia) Hbg Hreg) as (r & Hr' & Hrr).
    rewrite Hr' in Hr. now injection Hr as <-.
  - apply (proj1 (float_from_wei_gwei _)) in Hpg. rewrite Hpg.
    apply (nearest_regular _ _ 256); [lia|lia|reflexivity].
  - apply (proj1 (float_from_wei_ether _)) in Hfe. rewrite Hfe.
    apply (nearest_regular _ _ 256); [lia|nia|reflexivity].
  - apply (proj1 (float_from_wei_gwei _)) in Hbf. rewrite Hbf.
    apply (nearest_regular _ _ 256); [lia|lia|reflexivity].
Qed.

(** X8. The fallbacks of [or]: the recipient of a summary is never empty, an
    empty recipient counts as a contract creation like an absent one, and a
    gas limit that is absent counts as 0. *)
Theorem summary_falsy_fallbacks w3 tx_hash tx receipt block latest s :
  build_summary w3 tx_hash tx receipt block latest = Ret s ->
  to_addr s <> ""
  /\ (tx_to tx = Some "" -> to_addr s = "(contract creation)")
  /\ (forall a, tx_to tx = Some a -> a <> "" -> to_addr s = a)
  /\ (tx_gas tx = None -> gasLimit s = 0 /\ gasEfficiency s = PyFloat.pos_zero)
  /\ (forall g, tx_gas tx = Some g -> gasLimit s = g).
Proof.
  intros Hs. apply build_summary_Ret in Hs.
  destruct Hs as (g & chain & Hg & _ & Hr & _ & _ & _ & H).
  assert (Ht : to_addr s = str_or (tx_to tx) "(contract creation)") by tauto.
  assert (Hl : gasLimit s = int_or (tx_gas tx) 0) by tauto.
  rewrite Ht, Hl. clear H Ht Hl. unfold str_or.
  split; [|split; [|split; [|split]]].
  - destruct (tx_to tx) as [[|c a]|]; discriminate.
  - now intros ->.
  - intros a -> Ha. destruct a; [contradiction|reflexivity].
  - intros Hn. rewrite Hn in Hg. cbn in Hg. injection Hg as <-.
    cbn in Hr. injection Hr as <-. now rewrite Hn.
  - intros g0 ->. rewrite int_or_zero. reflexivity.
Qed.

(** ** Instances of the further properties *)

Lemma is_tx_hash_exact_length_witness :
  is_tx_hash (sample_hash +:+ newline) = false
  /\ is_tx_hash (newline +:+ sample_hash) = false.
Proof.
  apply (is_tx_hash_exact_length sample_hash newline); [reflexivity|discriminate].
Defined.

Lemma explorer_url_unknown_iff_witness :
  String.eqb (explorer_url 1 sample_hash) (explorer_url 1 sample_addr) = false.
Proof.
  destruct (String.eqb_spec (explorer_url 1 sample_hash)
              (explorer_url 1 sample_addr)) as [Heq|]; [|reflexivity].
  apply (proj2 (explorer_url_unknown_iff 1 sample_hash)) in Heq;
    discriminate.
Defined.

Lemma summary_fallbacks_agree_witness :
  exists s,
    sample_summary 999999 (sample_tx (Some 21000) None)
      (sample_receipt 21000 None None) (sample_block None None) 98 = Ret s
    /\ (explorer s = "N/A"
        <-> network s = "Chain " +:+ str_of_int (chainId s)).
Proof.
  eexists. split; [reflexivity|].
  apply (summary_fallbacks_agree
           (sample_w3 999999 (sample_tx (Some 21000) None)
              (sample_receipt 21000 None None) (sample_block None None) 98)
           sample_hash (sample_tx (Some 21000) None)
           (sample_receipt 21000 None None) (sample_block None None) 98).
  reflexivity.
Defined.

Lemma gas_efficiency_extremes_witness :
  exists s,
    build_summary scenario_w3 sample_hash scenario_tx scenario_receipt
      scenario_block 98 = Ret s
    /\ gasEfficiency s = PyFloat.nearest 100 1.
Proof.
  eexists. split; [reflexivity|].
  apply (gas_efficiency_extremes scenario_w3 sample_hash scenario_tx
           scenario_receipt scenario_block 98); reflexivity.
Defined.

Lemma gas_efficiency_at_most_100_witness :
  exists s,
    sample_summary 1 (sample_tx (Some 100000) None)
      (sample_receipt 50000 None None) (sample_block None None) 100 = Ret s
    /\ at_most 100 (gasEfficiency s).
Proof.
  eexists. split; [reflexivity|].
  apply (gas_efficiency_at_most_100
           (sample_w3 1 (sample_tx (Some 100000) None)
              (sample_receipt 50000 None None) (sample_block None None) 100)
           sample_hash (sample_tx (Some 100000) None)
           (sample_receipt 50000 None None) (sample_block None None) 100);
    [reflexivity|]. cbn. lia.
Defined.

Lemma summary_floats_regular_witness :
  exists s,
    build_summary scenario_w3 sample_hash scenario_tx scenario_receipt
      scenario_block 98 = Ret s
    /\ Forall (fun x => regular x
                        /\ floatstr sample_float_repr x = sample_float_repr x)
         [gasEfficiency s; gasPriceGwei s; totalFeeEth s; baseFeeGwei s].
Proof.
  eexists. split; [reflexivity|].
  apply (summary_floats_regular scenario_w3 sample_hash scenario_tx
           scenario_receipt scenario_block 98);
    [reflexivity|apply scenario_in_range|]. cbn. lia.
Defined.

Lemma summary_falsy_fallbacks_witness :
  exists s,
    sample_summary 1 (sample_tx None (Some ""))
      (sample_receipt 21000 None None) (sample_block None None) 98 = Ret s
    /\ to_addr s = "(contract creation)"
    /\ gasLimit s = 0.
Proof.
  eexists. split; [reflexivity|].
  pose proof (summary_falsy_fallbacks
           (sample_w3 1 (sample_tx None (Some ""))
              (sample_receipt 21000 None None) (sample_block None None) 98)
           sample_hash (sample_tx None (Some ""))
           (sample_receipt 21000 None None) (sample_block None None) 98
           _ eq_refl) as (_ & Ht & _ & Hg & _).
  split; [apply Ht | apply Hg]; reflexivity.
Defined.

(** X13. The price of a returned summary.  The builder returns for in-range
    answers, and whenever it returns the gas price reached it as an int:
    the receipt's [effectiveGasPrice] when present, otherwise its [gasPrice]
    or 0; [gasPriceGwei] is that int over 1e9 and [totalFeeEth] is
    [gasUsed] times that int over 1e18, each as the nearest float.  An
    effective price of 30_000_000_000 with 21000 gas used gives 30.0 and
    0.00063, also beside a [gasPrice] left as a string. *)
Theorem gas_price_and_fee :
  (forall w3 tx_hash tx receipt block latest,
      (answers_in_range w3 receipt block ->
       exists s, build_summary w3 tx_hash tx receipt block latest = Ret s)
      /\ forall s,
          build_summary w3 tx_hash tx receipt block latest = Ret s ->
          exists p,
            gas_price_of receipt = QInt p
            /\ (forall e, rc_effectiveGasPrice receipt = Some e -> p = e)
            /\ (rc_effectiveGasPrice receipt = None ->
                rc_gasPrice receipt = Some (QInt p)
                \/ rc_gasPrice receipt = None /\ p = 0)
            /\ gasPriceGwei s = PyFloat.nearest p (10 ^ 9)
            /\ totalFeeEth s = PyFloat.nearest (gasUsed s * p) (10 ^ 18))
  /\ (let s := sample_summary 137 (sample_tx (Some 21000) (Some sample_addr))
                 (sample_receipt 21000 (Some 30000000000)
                    (Some (QStr "0x6fc23ac00")))
                 (sample_block (Some 20000000000) None) 98 in
      field gasPriceGwei s = Ret (PyFloat.nearest 30 1)
      /\ field totalFeeEth s = Ret (PyFloat.nearest 63 100000)).
Proof.
  split; [|split; reflexivity].
  intros w3 tx_hash tx receipt block latest.
  split; [apply build_summary_returns|]. intros s Hs.
  destruct (build_summary_price _ _ _ _ _ _ _ Hs) as (p & Hq & Hp & Hf).
  apply build_summary_Ret in Hs.
  destruct Hs as (g & chain & _ & _ & _ & _ & _ & _ & H).
  assert (Hused : gasUsed s = rc_gasUsed receipt) by tauto.
  rewrite Hused. clear H Hused.
  exists p. split; [exact Hq|]. unfold gas_price_of in Hq.
  split; [|split; [|split]].
  - intros e He. rewrite He in Hq. now injection Hq.
  - intros He. rewrite He in Hq.
    destruct (rc_gasPrice receipt) as [q|].
    + left. now rewrite Hq.
    + right. split; [reflexivity|]. now injection Hq.
  - now apply (proj1 (float_from_wei_gwei _)).
  - now apply (proj1 (float_from_wei_ether _)).
Qed.

Lemma gas_price_and_fee_witness :
  exists s, sample_summary 137 (sample_tx (Some 21000) (Some sample_addr))
              (sample_receipt 21000 None (Some (QInt 30000000000)))
              (sample_block (Some 20000000000) None) 98
            = Ret s
            /\ exists p,
                 gas_price_of
                   (sample_receipt 21000 None (Some (QInt 30000000000)))
                 = QInt p
                 /\ gasPriceGwei s = PyFloat.nearest p (10 ^ 9)
                 /\ totalFeeEth s = PyFloat.nearest (gasUsed s * p) (10 ^ 18).
Proof.
  eexists. split; [reflexivity|].
  destruct (proj2 (proj1 gas_price_and_fee
           (sample_w3 137 (sample_tx (Some 21000) (Some sample_addr))
              (sample_receipt 21000 None (Some (QInt 30000000000)))
              (sample_block (Some 20000000000) None) 98)
           sample_hash (sample_tx (Some 21000) (Some sample_addr))
           (sample_receipt 21000 None (Some (QInt 30000000000)))
           (sample_block (Some 20000000000) None) 98) _ eq_refl)
    as (p & Hq & _ & _ & Hg & Hf).
  exists p. split; [exact Hq|]. split; [exact Hg|exact Hf].
Defined.

(** ** The program after its arguments are parsed *)

Section MoreProgramProperties.

Variable float_repr : spec_float -> string.
Variable format_fixed : nat -> spec_float -> string.
Variable strftime_gmtime : pyval -> outcome string.
Variable env : Env.

(** What the text branch prints for the dict of a summary: it depends on
    the date of the timestamp alone. *)
Lemma print_text_cases (s : TxSummary) (out : list string) :
  print_text float_repr format_fixed strftime_gmtime (asdict s) out
  = match strftime_gmtime (VInt (timestamp s)) with
    | Ret when =>
        (Ret tt, (out ++ text_lines float_repr format_fixed when s)%list)
    | Exit code => (Exit code, (out ++ text_head s)%list)
    | Raise e => (Raise e, (out ++ text_head s)%list)
    end.
Proof.
  unfold print_text, text_lines, text_head, text_tail, fmt_time.
  unfold mbind, mret, IO_bind, IO_ret, io_bind, io_ret, lift, print.
  cbn [asdict dict_get String.eqb Ascii.eqb Bool.eqb fmt fmt_fixed fmt_time truthy].
  cbv beta iota.
  destruct (strftime_gmtime (VInt (timestamp s)));
    destruct (status s =? 0); cbn [negb app]; rewrite <- ?app_assoc;
    reflexivity.
Qed.

(** X9. Text mode reads only keys that the summary dict has, with values
    its format codes accept, so that what it prints depends on the date of
    the timestamp alone.  When the date is returned the report of eleven
    lines is printed whole; when [time.gmtime] raises, the six lines before
    the block line are printed already and the exception goes on. *)
Theorem print_text_asdict (s : TxSummary) (out : list string) :
  (forall when,
      strftime_gmtime (VInt (timestamp s)) = Ret when ->
      print_text float_repr format_fixed strftime_gmtime (asdict s) out
      = (Ret tt, (out ++ text_lines float_repr format_fixed when s)%list)
      /\ length (text_lines float_repr format_fixed when s) = 11%nat)
  /\ (forall e,
        strftime_gmtime (VInt (timestamp s)) = Raise e ->
        print_text float_repr format_fixed strftime_gmtime (asdict s) out
        = (Raise e, (out ++ text_head s)%list)
        /\ length (text_head s) = 6%nat).
Proof.
  split; intros x Hx; (split; [|reflexivity]);
    rewrite print_text_cases, Hx; reflexivity.
Qed.

(** How [fetch_summary] can end: with the dict of a built summary and
    nothing printed, with the pending notice and exit status 0, or with the
    failure of a request or of the builder and nothing printed. *)
Lemma fetch_summary_cases (w3 : Web3) (tx_hash : string) (out : list string) :
  (exists tx receipt block latest s,
      eth_get_transaction w3 tx_hash = Ret tx
      /\ tx_blockNumber tx <> None
      /\ eth_get_transaction_receipt w3 tx_hash = Ret receipt
      /\ eth_get_block w3 (rc_blockNumber receipt) = Ret block
      /\ eth_block_number w3 = Ret latest
      /\ build_summary w3 tx_hash tx receipt block latest = Ret s
      /\ fetch_summary w3 tx_hash out = (Ret (asdict s), out))
  \/ (exists tx,
         eth_get_transaction w3 tx_hash = Ret tx
         /\ tx_blockNumber tx = None
         /\ fetch_summary w3 tx_hash out
            = (Exit 0, (out ++ [pending_line])%list))
  \/ ((exists code, fetch_summary w3 tx_hash out = (Exit code, out))
      \/ (exists e, fetch_summary w3 tx_hash out = (Raise e, out))).
Proof.
  unfold fetch_summary.
  unfold mbind, mret, IO_bind, IO_ret, io_bind, io_ret, lift, print, sys_exit.
  destruct (eth_get_transaction w3 tx_hash) as [tx| |] eqn:Htx;
    [|right; right; eauto..].
  destruct (tx_blockNumber tx) as [bn|] eqn:Hbn;
    [|right; left; exists tx; auto].
  destruct (eth_get_transaction_receipt w3 tx_hash) as [receipt| |] eqn:Hrc;
    [|right; right; eauto..].
  destruct (eth_get_block w3 (rc_blockNumber receipt)) as [block| |] eqn:Hblk;
    [|right; right; eauto..].
  destruct (eth_block_number w3) as [latest| |] eqn:Hl;
    [|right; right; eauto..].
  destruct (build_summary w3 tx_hash tx receipt block latest) as [s| |] eqn:Hs;
    [|right; right; eauto..].
  left. exists tx, receipt, block, latest, s.
  repeat split; try assumption. congruence.
Qed.

(** X11. After a valid hash and a successful connection [main] prints the
    latency line and then: in JSON mode the whole object and a normal end;
    in text mode the whole report and a normal end when the date of the
    timestamp is returned, and the first six lines of the report and no
    normal end when it is not; the pending notice and exit status 0; or
    nothing more and no normal end.  A part of a report is printed only in
    text mode, for a timestamp without a date. *)
Theorem main_body_outputs (args : Namespace) :
  is_tx_hash (ns_tx_hash args) = true ->
  is_connected (provider env (ns_rpc args)) = true ->
  let w3 := provider env (ns_rpc args) in
  let latency := latency_line format_fixed env in
  let r := main_body float_repr format_fixed strftime_gmtime env args [] in
  (exists s,
      fetch_summary w3 (ns_tx_hash args) [latency] = (Ret (asdict s), [latency])
      /\ ((ns_json args = true
           /\ r = (Ret tt, [latency; pretty_object (json_members float_repr s)]))
          \/ (exists when,
                 ns_json args = false
                 /\ strftime_gmtime (VInt (timestamp s)) = Ret when
                 /\ r = (Ret tt,
                         latency :: text_lines float_repr format_fixed when s))
          \/ (ns_json args = false
              /\ (forall when,
                     strftime_gmtime (VInt (timestamp s)) <> Ret when)
              /\ r.2 = latency :: text_head s
              /\ forall u, r.1 <> Ret u)))
  \/ r = (Exit 0, [latency; pending_line])
  \/ (r.2 = [latency] /\ forall u, r.1 <> Ret u).
Proof.
  intros Hhash Hconn. cbv zeta.
  unfold main_body, connect. rewrite Hhash, Hconn.
  unfold mbind, mret, IO_bind, IO_ret, io_bind, io_ret, print.
  cbn [negb fst snd app].
  fold (latency_line format_fixed env).
  destruct (fetch_summary_cases (provider env (ns_rpc args)) (ns_tx_hash args)
              [latency_line format_fixed env])
    as [(tx & receipt & block & latest & s & _ & _ & _ & _ & _ & _ & Hf)
       |[(tx & _ & _ & Hf)|[[code Hf]|[e Hf]]]]; rewrite Hf.
  - left. exists s. split; [reflexivity|].
    destruct (ns_json args).
    + left. split; [reflexivity|]. now rewrite json_dumps_asdict.
    + right. rewrite print_text_cases.
      destruct (strftime_gmtime (VInt (timestamp s))) as [when|code|e] eqn:Hw.
      * left. exists when. repeat split.
      * right. repeat split; discriminate.
      * right. repeat split; discriminate.
  - right. left. reflexivity.
  - right. right. split; [reflexivity|discriminate].
  - right. right. split; [reflexivity|discriminate].
Qed.


End MoreProgramProperties.

Lemma print_text_asdict_witness :
  print_text sample_float_repr sample_format_fixed sample_strftime
    (asdict (scenario_result 1700000000)) []
  = (Ret tt,
     text_lines sample_float_repr sample_format_fixed "2023-11-14 22:13:20"
       (scenario_result 1700000000))
  /\ print_text sample_float_repr sample_format_fixed sample_strftime
       (asdict (scenario_result 1000000000000000000000000000000)) []
     = (Raise (OverflowError "timestamp out of range for platform time_t"),
        text_head (scenario_result 1000000000000000000000000000000)).
Proof.
  split.
  - exact (proj1 (proj1 (print_text_asdict sample_float_repr
                           sample_format_fixed sample_strftime
                           (scenario_result 1700000000) [])
                    "2023-11-14 22:13:20" eq_refl)).
  - exact (proj1 (proj2 (print_text_asdict sample_float_repr
                           sample_format_fixed sample_strftime
                           (scenario_result 1000000000000000000000000000000) [])
                    (OverflowError "timestamp out of range for platform time_t")
                    eq_refl)).
Defined.


Lemma main_body_outputs_witness :
  exists s,
    fetch_summary late_w3 sample_hash
      [latency_line sample_format_fixed (sample_env late_w3)]
    = (Ret (asdict s), [latency_line sample_format_fixed (sample_env late_w3)])
    /\ (main_body sample_float_repr sample_format_fixed sample_strftime
          (sample_env late_w3) (sample_args sample_hash false) []).2
       = latency_line sample_format_fixed (sample_env late_w3) :: text_head s.
Proof.
  destruct (main_body_outputs sample_float_repr sample_format_fixed
              sample_strftime (sample_env late_w3)
              (sample_args sample_hash false) eq_refl eq_refl)
    as [(s & Hf & [[Hj _]|[(when & _ & Hw & _)|(_ & _ & Hr & _)]])|[H|[H _]]].
  - discriminate Hj.
  - exfalso.
    apply (f_equal (fun r => match r.1 with
                             | Ret d => dict_get d "timestamp"
                             | _ => Ret (VInt 0)
                             end)) in Hf.
    vm_compute in Hf.
    change (Ret (VInt 1000000000000000000000000000000)
            = Ret (VInt (timestamp s))) in Hf.
    injection Hf as Hf. rewrite <- Hf in Hw. discriminate Hw.
  - exists s. split; [exact Hf|exact Hr].
  - vm_compute in H. discriminate H.
  - vm_compute in H. discriminate H.
Defined.

Lemma main_body_exit_codes_witness :
  main_body sample_float_repr sample_format_fixed sample_strftime
    (sample_env scenario_w3) (sample_args "0x12" false) []
  = (Exit 1, ["❌ Invalid tx hash."])
  /\ main_body sample_float_repr sample_format_fixed sample_strftime
       (sample_env offline_w3) (sample_args sample_hash false) []
     = (Exit 1, ["❌ Could not connect to RPC: https://rpc.example"])
  /\ main_body sample_float_repr sample_format_fixed sample_strftime
       (sample_env pending_w3) (sample_args sample_hash false) []
     = (Exit 0, ["⚡ RPC latency: 0.250s"; "⏳ Pending transaction."]).
Proof.
  split; [|split].
  - exact (proj1 (main_body_exit_codes sample_float_repr sample_format_fixed
                    sample_strftime (sample_env scenario_w3)
                    (sample_args "0x12" false) []) eq_refl).
  - exact (proj1 (proj2 (main_body_exit_codes sample_float_repr
                    sample_format_fixed sample_strftime (sample_env offline_w3)
                    (sample_args sample_hash false) [])) eq_refl eq_refl).
  - exact (proj2 (proj2 (main_body_exit_codes sample_float_repr
                    sample_format_fixed sample_strftime (sample_env pending_w3)
                    (sample_args sample_hash false) [])) eq_refl eq_refl
             _ eq_refl eq_refl).
Defined.
